(** * GUDOAI: orchestrator, metadata store and mock registry

    A shallow embedding of [gudoai_api_client.py] and [gudoai_core.py].

    - Python text is a [string]; characters are code points below 256.
    - The two JSON shapes the program writes and reads back are records:
      [ProjectMetadata.t] for [gudoai_meta.json] and [RegistryRecord.t] for
      an entry of [.gudoai_api_db.json].  Python integers are [Z].  A file
      that [json.load] rejects is [NotJson] / [DbUnreadable]; a file that
      is valid JSON of another shape is not represented.
    - [self.projects] is a [gmap] from project id to registry record.
    - The file system, the registry database file, the in-memory registry
      and the history of external effects form the [state]; every method
      is a computation in a state-and-exception monad [M].  An exception
      keeps the state reached so far, as in Python.
    - The version-control tool is an oracle stored in the state: the
      completed process of a [subprocess.run] is a function of the history
      of effects so far, of the working directory and of the arguments.
    - Console output ([print]) is not modelled, except for
      [check_api_status] further down; opening a file for writing and
      starting the external tool are assumed not to fail. *)

From stdpp Require Import gmap strings list fin_maps pretty.
From Stdlib Require Import ZArith Ascii Lia.

Local Open Scope string_scope.
Local Open Scope Z_scope.

(** ** Python string operations used by the program *)

Module Py.

(** [str.isspace] on a single character below code point 256. *)
Definition is_space (c : ascii) : bool :=
  let n := N_of_ascii c in
  ((9 <=? n) && (n <=? 13) || (28 <=? n) && (n <=? 32)
   || (n =? 133) || (n =? 160))%N.

Fixpoint lstrip (s : string) : string :=
  match s with
  | EmptyString => EmptyString
  | String c s' => if is_space c then lstrip s' else s
  end.

Fixpoint rstrip (s : string) : string :=
  match s with
  | EmptyString => EmptyString
  | String c s' =>
      match rstrip s' with
      | EmptyString => if is_space c then EmptyString else String c EmptyString
      | r => String c r
      end
  end.

(** [s.strip()] *)
Definition strip (s : string) : string := rstrip (lstrip s).

(** [s.split(sep)] for a one-character separator. *)
Fixpoint split (sep : ascii) (s : string) : list string :=
  match s with
  | EmptyString => [EmptyString]
  | String c s' =>
      if Ascii.eqb c sep then EmptyString :: split sep s'
      else match split sep s' with
           | [] => [String c EmptyString]
           | w :: ws => String c w :: ws
           end
  end.

Definition newline : ascii := ascii_of_nat 10.

Fixpoint ends_with_slash (s : string) : bool :=
  match s with
  | EmptyString => false
  | String c EmptyString => Ascii.eqb c "/"
  | String _ s' => ends_with_slash s'
  end.

(** [os.path.join(a, b)] on POSIX for a relative second component. *)
Definition path_join (a b : string) : string :=
  if decide (a = "") then b
  else if ends_with_slash a then a +:+ b
  else a +:+ "/" +:+ b.

End Py.

(** ** Data model *)

(** The JSON object of [gudoai_meta.json]. *)
Module ProjectMetadata.
Record t : Type := Build {
  project_id : string;
  version : Z;
  description : string;
  last_api_sync_commit_hash : option string;
  api_registered : bool
}.
End ProjectMetadata.

(** One value of the registry dictionary. *)
Module RegistryRecord.
Record t : Type := Build {
  project_id : string;
  project_name : string;
  commit_hash : string;
  version : Z;
  description : string;
  file_manifest : list string;
  last_synced_commit : option string;
  is_deployed : bool
}.
End RegistryRecord.

(** Content of an existing [gudoai_meta.json]. *)
Inductive meta_file : Type :=
  | NotJson
  | Json (m : ProjectMetadata.t).

(** Content of an existing [.gudoai_api_db.json]. *)
Inductive db_content : Type :=
  | DbUnreadable
  | DbJson (d : gmap string RegistryRecord.t).

(** A completed subprocess. *)
Record CompletedProcess : Type := {
  returncode : Z;
  stdout : string;
  stderr : string
}.

(** Second component of what a registry method returns. *)
Inductive payload : Type :=
  | PError (error : string)
  | PRegistered (registry_id : string)
  | PSynced (last_synced_commit : string)
  | PRecord (r : RegistryRecord.t).

(** External effects, in the order they happen.  A registry method is
    recorded when it returns, with its arguments and the status code it
    returns. *)
Inductive event : Type :=
  | EvRun (cwd : string) (args : list string) (r : CompletedProcess)
  | EvWriteMeta (path : string) (m : ProjectMetadata.t)
  | EvSaveDb (d : gmap string RegistryRecord.t)
  | EvApiRegister (id name hash : string) (version : Z) (descr : string)
      (status : Z)
  | EvApiSync (id hash : string) (version : Z) (descr : string)
      (manifest : list string) (status : Z)
  | EvApiStatus (id : string) (status : Z).

Inductive exn : Type :=
  | FileNotFoundError (path : string)
  | ValueError (msg : string)
  | RuntimeError (msg : string)
  | CalledProcessError (args : list string) (rc : Z).

Definition oracle : Type :=
  list event → string → list string → CompletedProcess.

Record state : Type := State {
  meta_files : gmap string meta_file;
  db_file : option db_content;
  projects : gmap string RegistryRecord.t;
  trace : list event;
  git : oracle
}.

(** ** The state-and-exception monad *)

Inductive outcome (A : Type) : Type :=
  | Return (a : A)
  | Raise (e : exn).
Arguments Return {A} a.
Arguments Raise {A} e.

Definition M (A : Type) : Type := state → outcome A * state.

#[export] Instance M_ret : MRet M := λ A a st, (Return a, st).
#[export] Instance M_bind : MBind M := λ A B f c st,
  match c st with
  | (Return a, st') => f a st'
  | (Raise e, st') => (Raise e, st')
  end.

Definition raise {A} (e : exn) : M A := λ st, (Raise e, st).
Definition gets {A} (f : state → A) : M A := λ st, (Return (f st), st).
Definition modify (f : state → state) : M unit := λ st, (Return tt, f st).

Definition log (ev : event) (st : state) : state :=
  State (meta_files st) (db_file st) (projects st) (trace st ++ [ev]) (git st).
Definition set_projects (d : gmap string RegistryRecord.t) (st : state) : state :=
  State (meta_files st) (db_file st) d (trace st) (git st).
Definition set_db_file (c : option db_content) (st : state) : state :=
  State (meta_files st) c (projects st) (trace st) (git st).
Definition set_meta_files (fs : gmap string meta_file) (st : state) : state :=
  State fs (db_file st) (projects st) (trace st) (git st).

(** [subprocess.run(args, cwd=cwd, stdout=PIPE, stderr=PIPE, text=True)] *)
Definition run (cwd : string) (args : list string) : M CompletedProcess := λ st,
  let r := git st (trace st) cwd args in
  (Return r, log (EvRun cwd args r) st).

(** [subprocess.run(args, cwd=cwd, check=True)] *)
Definition run_checked (cwd : string) (args : list string) : M unit :=
  r ← run cwd args;
  if decide (returncode r = 0) then mret tt
  else raise (CalledProcessError args (returncode r)).

(** [json.dump(meta, open(path, 'w'), indent=2)] *)
Definition dump_meta (path : string) (m : ProjectMetadata.t) : M unit :=
  modify (λ st, log (EvWriteMeta path m)
                  (set_meta_files (<[path := Json m]> (meta_files st)) st)).

(** ** gudoai_api_client.py *)

Module GudoaiApiClient.

Definition _load_projects : M (gmap string RegistryRecord.t) :=
  gets (λ st, match db_file st with
              | Some (DbJson d) => d
              | Some DbUnreadable => ∅
              | None => ∅
              end).

Definition __init__ : M unit :=
  d ← _load_projects;
  modify (set_projects d).

Definition _save_projects : M unit :=
  modify (λ st, log (EvSaveDb (projects st))
                  (set_db_file (Some (DbJson (projects st))) st)).

Definition new_record (project_id project_name commit_hash : string)
    (version : Z) (description : string) : RegistryRecord.t :=
  {| RegistryRecord.project_id := project_id;
     RegistryRecord.project_name := project_name;
     RegistryRecord.commit_hash := commit_hash;
     RegistryRecord.version := version;
     RegistryRecord.description := description;
     RegistryRecord.file_manifest := [];
     RegistryRecord.last_synced_commit := None;
     RegistryRecord.is_deployed := false |}.

(** [record.update({...})] of [sync_project] *)
Definition update_record (r : RegistryRecord.t) (commit_hash : string)
    (version : Z) (description : string) (file_manifest : list string)
    : RegistryRecord.t :=
  {| RegistryRecord.project_id := RegistryRecord.project_id r;
     RegistryRecord.project_name := RegistryRecord.project_name r;
     RegistryRecord.commit_hash := commit_hash;
     RegistryRecord.version := version;
     RegistryRecord.description := description;
     RegistryRecord.file_manifest := file_manifest;
     RegistryRecord.last_synced_commit := Some commit_hash;
     RegistryRecord.is_deployed := RegistryRecord.is_deployed r |}.

(** [return status, body], recorded in the history *)
Definition respond (call : Z → event) (status : Z) (body : payload)
    : M (Z * payload) :=
  modify (log (call status));;
  mret (status, body).

Definition register_project (project_id project_name commit_hash : string)
    (version : Z) (description : string) : M (Z * payload) :=
  let call :=
    EvApiRegister project_id project_name commit_hash version description in
  ps ← gets projects;
  match ps !! project_id with
  | Some _ => respond call 409 (PError "Project ID already registered")
  | None =>
      modify (set_projects
                (<[project_id :=
                     new_record project_id project_name commit_hash
                       version description]> ps));;
      _save_projects;;
      respond call 201 (PRegistered project_id)
  end.

Definition sync_project (project_id commit_hash : string) (version : Z)
    (description : string) (file_manifest : list string) : M (Z * payload) :=
  let call :=
    EvApiSync project_id commit_hash version description file_manifest in
  ps ← gets projects;
  match ps !! project_id with
  | None => respond call 404 (PError "Project not found")
  | Some r =>
      if decide (version ≤ RegistryRecord.version r) then
        respond call 400
          (PError "Stale data: metadata_version must be greater than current.")
      else
        modify (set_projects
                  (<[project_id :=
                       update_record r commit_hash version description
                         file_manifest]> ps));;
        _save_projects;;
        respond call 200 (PSynced commit_hash)
  end.

Definition get_project_status (project_id : string) : M (Z * payload) :=
  ps ← gets projects;
  match ps !! project_id with
  | None => respond (EvApiStatus project_id) 404 (PError "Project not found")
  | Some r => respond (EvApiStatus project_id) 200 (PRecord r)
  end.

End GudoaiApiClient.

(** ** gudoai_core.py *)

Module GudoaiCore.

(** [self.api_client = GudoaiApiClient()] *)
Definition __init__ : M unit := GudoaiApiClient.__init__.

Definition meta_path (project_name : string) : string :=
  Py.path_join project_name "gudoai_meta.json".

Definition git_add : list string := ["git"; "add"; "gudoai_meta.json"].
Definition git_commit (message : string) : list string :=
  ["git"; "commit"; "-m"; message].

Definition with_description_bumped (meta : ProjectMetadata.t)
    (new_description : string) : ProjectMetadata.t :=
  {| ProjectMetadata.project_id := ProjectMetadata.project_id meta;
     ProjectMetadata.version := ProjectMetadata.version meta + 1;
     ProjectMetadata.description := new_description;
     ProjectMetadata.last_api_sync_commit_hash :=
       ProjectMetadata.last_api_sync_commit_hash meta;
     ProjectMetadata.api_registered := ProjectMetadata.api_registered meta |}.

Definition update_metadata (project_name new_description : string) : M unit :=
  let meta_path := meta_path project_name in
  f ← gets (λ st, meta_files st !! meta_path);
  match f with
  | None => raise (FileNotFoundError meta_path)
  | Some NotJson =>
      raise (ValueError ("File " +:+ meta_path +:+ " is not valid JSON."))
  | Some (Json meta) =>
      let meta := with_description_bumped meta new_description in
      dump_meta meta_path meta;;
      run_checked project_name git_add;;
      run_checked project_name
        (git_commit ("GUDOAI: Updated metadata - version "
                     +:+ pretty (ProjectMetadata.version meta)))
  end.

Definition create_feature_branch (project_name branch_name : string) : M unit :=
  let branch_name := "feature/" +:+ branch_name in
  result ← run project_name ["git"; "checkout"; "-b"; branch_name];
  if decide (returncode result ≠ 0) then
    raise (RuntimeError ("Failed to create branch '" +:+ branch_name
                         +:+ "': " +:+ stderr result))
  else mret tt.

Definition merge_to_main (project_name feature_branch_name : string) : M bool :=
  let feature_branch := "feature/" +:+ feature_branch_name in
  result ← run project_name ["git"; "checkout"; "master"];
  if decide (returncode result ≠ 0) then
    raise (RuntimeError ("Failed to switch to main branch: "
                         +:+ stderr result))
  else
    result ← run project_name ["git"; "merge"; feature_branch];
    if decide (returncode result ≠ 0) then mret false
    else mret true.

Definition _get_current_commit_hash (project_name : string) : M string :=
  result ← run project_name ["git"; "rev-parse"; "HEAD"];
  if decide (returncode result ≠ 0) then
    raise (RuntimeError ("Failed to get commit hash: " +:+ stderr result))
  else mret (Py.strip (stdout result)).

Definition _get_tracked_files (project_name : string) : M (list string) :=
  result ← run project_name ["git"; "ls-files"];
  if decide (returncode result ≠ 0) then
    raise (RuntimeError ("Failed to get tracked files: " +:+ stderr result))
  else mret (Py.split Py.newline (Py.strip (stdout result))).

(** The three assignments of [register_project] after a [201]. *)
Definition registered_at (meta : ProjectMetadata.t) (commit_hash : string)
    : ProjectMetadata.t :=
  {| ProjectMetadata.project_id := ProjectMetadata.project_id meta;
     ProjectMetadata.version := ProjectMetadata.version meta + 1;
     ProjectMetadata.description := ProjectMetadata.description meta;
     ProjectMetadata.last_api_sync_commit_hash := Some commit_hash;
     ProjectMetadata.api_registered := true |}.

(** The assignment of [sync_project] after a [200]. *)
Definition synced_at (meta : ProjectMetadata.t) (commit_hash : string)
    : ProjectMetadata.t :=
  {| ProjectMetadata.project_id := ProjectMetadata.project_id meta;
     ProjectMetadata.version := ProjectMetadata.version meta;
     ProjectMetadata.description := ProjectMetadata.description meta;
     ProjectMetadata.last_api_sync_commit_hash := Some commit_hash;
     ProjectMetadata.api_registered := ProjectMetadata.api_registered meta |}.

(** [json.load] under [except (FileNotFoundError, json.JSONDecodeError)] *)
Definition load_meta (meta_path : string) : M ProjectMetadata.t :=
  f ← gets (λ st, meta_files st !! meta_path);
  match f with
  | None => raise (ValueError "Failed to read metadata")
  | Some NotJson => raise (ValueError "Failed to read metadata")
  | Some (Json meta) => mret meta
  end.

Definition register_project (project_name : string) : M unit :=
  let meta_path := meta_path project_name in
  meta ← load_meta meta_path;
  if ProjectMetadata.api_registered meta then
    raise (ValueError "Project already registered with the API.")
  else
    commit_hash ← _get_current_commit_hash project_name;
    '(status_code, response) ←
      GudoaiApiClient.register_project
        (ProjectMetadata.project_id meta) project_name commit_hash
        (ProjectMetadata.version meta) (ProjectMetadata.description meta);
    if decide (status_code = 201) then
      dump_meta meta_path (registered_at meta commit_hash);;
      run_checked project_name git_add;;
      run_checked project_name
        (git_commit "GUDOAI: Project registered to API")
    else mret tt.

Definition sync_project (project_name : string) : M unit :=
  let meta_path := meta_path project_name in
  meta ← load_meta meta_path;
  if negb (ProjectMetadata.api_registered meta) then
    raise (ValueError "Project not registered with the API.")
  else
    commit_hash ← _get_current_commit_hash project_name;
    files ← _get_tracked_files project_name;
    '(status_code, response) ←
      GudoaiApiClient.sync_project
        (ProjectMetadata.project_id meta) commit_hash
        (ProjectMetadata.version meta) (ProjectMetadata.description meta)
        files;
    if decide (status_code = 200) then
      dump_meta meta_path (synced_at meta commit_hash);;
      run_checked project_name git_add;;
      run_checked project_name
        (git_commit "GUDOAI: Project synced with API")
    else mret tt.

End GudoaiCore.

(** ** Reading the history *)

(** The effects performed between two states of one run. *)
Definition new_events (st st' : state) : list event :=
  drop (length (trace st)) (trace st').

(** Status codes returned by the registry. *)
Definition api_statuses (evs : list event) : list Z :=
  omap (λ ev, match ev with
              | EvApiRegister _ _ _ _ _ s => Some s
              | EvApiSync _ _ _ _ _ s => Some s
              | EvApiStatus _ s => Some s
              | _ => None
              end) evs.

(** Metadata files written. *)
Definition meta_writes (evs : list event) : list (string * ProjectMetadata.t) :=
  omap (λ ev, match ev with
              | EvWriteMeta p m => Some (p, m)
              | _ => None
              end) evs.

(** Argument vectors of the subprocesses run. *)
Definition commands (evs : list event) : list (list string) :=
  omap (λ ev, match ev with
              | EvRun _ args _ => Some args
              | _ => None
              end) evs.

(** ** Successive calls

    The three methods that rewrite [gudoai_meta.json], and the start of a
    new process, which constructs a fresh [GudoaiCore] and so reloads the
    registry from its database file.  An exception ends the call it occurs
    in; the next call starts from the state that call left behind. *)
Inductive action : Type :=
  | UpdateMetadata (project_name new_description : string)
  | RegisterProject (project_name : string)
  | SyncProject (project_name : string)
  | NewProcess.

Definition perform (a : action) : M unit :=
  match a with
  | UpdateMetadata project_name new_description =>
      GudoaiCore.update_metadata project_name new_description
  | RegisterProject project_name => GudoaiCore.register_project project_name
  | SyncProject project_name => GudoaiCore.sync_project project_name
  | NewProcess => GudoaiCore.__init__
  end.

Fixpoint perform_all (l : list action) (st : state) : state :=
  match l with
  | [] => st
  | a :: l => perform_all l (perform a st).2
  end.

(** ** Sample projects *)

Module Sample.

Definition line (s : string) : string := s +:+ String Py.newline "".

Definition exited (rc : Z) (out err : string) : CompletedProcess :=
  {| returncode := rc; stdout := out; stderr := err |}.

(** A repository in which every command succeeds. *)
Definition git_ok : oracle := λ _ _ args,
  match args with
  | ["git"; "rev-parse"; "HEAD"] => exited 0 (line "abc123") ""
  | ["git"; "ls-files"] =>
      exited 0 (line "gudoai_meta.json" +:+ line "README.md") ""
  | _ => exited 0 "" ""
  end.

(** A repository whose index is empty. *)
Definition git_untracked : oracle := λ _ _ args,
  match args with
  | ["git"; "rev-parse"; "HEAD"] => exited 0 (line "abc123") ""
  | _ => exited 0 "" ""
  end.

(** A repository in which every merge conflicts. *)
Definition git_conflict : oracle := λ _ _ args,
  match args with
  | ["git"; "merge"; _] => exited 1 "" "CONFLICT"
  | _ => exited 0 "" ""
  end.

(** A repository without a [master] branch. *)
Definition git_no_master : oracle := λ _ _ args,
  match args with
  | ["git"; "checkout"; "master"] => exited 1 "" "error: pathspec"
  | _ => exited 0 "" ""
  end.

Definition meta0 : ProjectMetadata.t :=
  {| ProjectMetadata.project_id := "id-1";
     ProjectMetadata.version := 0;
     ProjectMetadata.description := "New GUDOAI managed project.";
     ProjectMetadata.last_api_sync_commit_hash := None;
     ProjectMetadata.api_registered := false |}.

Definition on_disk (m : ProjectMetadata.t) (g : oracle) : state :=
  State {[ "demo/gudoai_meta.json" := Json m ]} None ∅ [] g.

(** Just after [init demo]. *)
Definition fresh : state := on_disk meta0 git_ok.

(** After [update_meta demo --description x]. *)
Definition updated : state := (GudoaiCore.update_metadata "demo" "x" fresh).2.

(** After [register_project demo]. *)
Definition registered : state := (GudoaiCore.register_project "demo" updated).2.

(** After [sync_project demo]. *)
Definition synced : state := (GudoaiCore.sync_project "demo" registered).2.

(** The same files and registry seen through another repository. *)
Definition with_git (g : oracle) (st : state) : state :=
  State (meta_files st) (db_file st) (projects st) (trace st) g.

(** Registered, with nothing tracked. *)
Definition untracked : state := with_git git_untracked registered.

(** The commands of a short session. *)
Definition session : list action :=
  [UpdateMetadata "demo" "x"; RegisterProject "demo"; NewProcess;
   SyncProject "demo"; SyncProject "demo"; UpdateMetadata "demo" "y"].

(** The registry already holds the project id of an unregistered copy. *)
Definition taken : state :=
  State (meta_files fresh) (db_file registered) (projects registered) [] git_ok.

End Sample.

(** ** gudoai_core.py: the remaining methods of [GudoaiCore]

    [init_project] asks the operating system whether a path exists and
    draws a fresh identifier; both answers are inputs, gathered in an
    [environment].  The directory tree itself is not part of the state:
    [os.makedirs] fails on the empty path and is otherwise assumed to
    succeed.  [check_api_status] only prints; its result here is the list
    of lines it prints (UTF-8 text) when it returns.  Two exceptions occur
    that [exn] does not list, [FileExistsError] and the [KeyError] of a
    subscript on a response without that key. *)

Module GudoaiCoreRest.

Record environment : Type := {
  path_exists : string → bool;
  uuid4 : string
}.

Inductive thrown : Type :=
  | FileExistsError (msg : string)
  | KeyError (key : string)
  | Thrown (e : exn).

Inductive result (A : Type) : Type :=
  | Ok (a : A)
  | Err (t : thrown).
Arguments Ok {A} a.
Arguments Err {A} t.

(** A computation of [M] seen with the larger set of exceptions. *)
Definition lift {A} (c : M A) (st : state) : result A * state :=
  match c st with
  | (Return a, st') => (Ok a, st')
  | (Raise e, st') => (Err (Thrown e), st')
  end.

(** [os.path.exists(path)]; the empty path never exists. *)
Definition exists_ (env : environment) (path : string) : bool :=
  if decide (path = "") then false else path_exists env path.

(** [os.makedirs(path)] *)
Definition makedirs (path : string) : M unit :=
  if decide (path = "") then raise (FileNotFoundError "") else mret tt.

Definition initial_meta (project_id : string) : ProjectMetadata.t :=
  {| ProjectMetadata.project_id := project_id;
     ProjectMetadata.version := 0;
     ProjectMetadata.description := "New GUDOAI managed project.";
     ProjectMetadata.last_api_sync_commit_hash := None;
     ProjectMetadata.api_registered := false |}.

Definition _create_gudoai_meta (project_id project_name : string) : M unit :=
  dump_meta (GudoaiCore.meta_path project_name) (initial_meta project_id).

Definition _init_git_repo (project_name : string) : M unit :=
  result ← run project_name ["git"; "init"];
  if decide (returncode result ≠ 0) then
    raise (RuntimeError ("Git init failed: " +:+ stderr result))
  else mret tt.

Definition _git_initial_commit (project_name : string) : M unit :=
  run_checked project_name GudoaiCore.git_add;;
  run_checked project_name
    (GudoaiCore.git_commit "GUDOAI: Initial project setup").

Definition init_project (env : environment) (project_name : string)
    (st : state) : result unit * state :=
  if exists_ env project_name then
    (Err (FileExistsError ("Project '" +:+ project_name
                           +:+ "' already exists.")), st)
  else
    lift (makedirs project_name;;
          _create_gudoai_meta (uuid4 env) project_name;;
          _init_git_repo project_name;;
          _git_initial_commit project_name) st.

(** [str(x)] for the values that [check_api_status] formats. *)
Definition str_bool (b : bool) : string := if b then "True" else "False".
Definition str_optional (o : option string) : string :=
  match o with
  | Some s => s
  | None => "None"
  end.

(** [response.get('error', 'Unknown error')] *)
Definition error_of (response : payload) : string :=
  match response with
  | PError e => e
  | _ => "Unknown error"
  end.

Definition hashes_equal_line : string :=
  "✅ Hash commit sama antara lokal dan API.".
Definition hashes_differ_line : string :=
  "⚠️ Hash commit berbeda antara lokal dan API.".

(** The lines printed for a record found in the registry. *)
Definition status_lines (project_name : string) (meta : ProjectMetadata.t)
    (response : RegistryRecord.t) : list string :=
  let last_commit := RegistryRecord.last_synced_commit response in
  let local_hash := ProjectMetadata.last_api_sync_commit_hash meta in
  [ "Status proyek '" +:+ project_name +:+ "':";
    "  - Project ID: " +:+ RegistryRecord.project_id response;
    "  - Nama: " +:+ RegistryRecord.project_name response;
    "  - Last Synced Commit: " +:+ str_optional last_commit;
    "  - Metadata Version: " +:+ pretty (RegistryRecord.version response);
    "  - Deskripsi: " +:+ RegistryRecord.description response;
    "  - Is Deployed: " +:+ str_bool (RegistryRecord.is_deployed response);
    if decide (local_hash = last_commit) then hashes_equal_line
    else hashes_differ_line ].

Definition check_api_status (project_name : string) (st : state)
    : result (list string) * state :=
  match GudoaiCore.load_meta (GudoaiCore.meta_path project_name) st with
  | (Raise e, st1) => (Err (Thrown e), st1)
  | (Return meta, st1) =>
      match GudoaiApiClient.get_project_status
              (ProjectMetadata.project_id meta) st1 with
      | (Raise e, st2) => (Err (Thrown e), st2)
      | (Return (status_code, response), st2) =>
          if decide (status_code = 200) then
            match response with
            | PRecord r => (Ok (status_lines project_name meta r), st2)
            | _ => (Err (KeyError "project_id"), st2)
            end
          else
            (Ok ["❌ Failed to get project status: " +:+ error_of response],
             st2)
      end
  end.

End GudoaiCoreRest.

(** ** Successive registry calls *)

Inductive api_call : Type :=
  | CallRegister (project_id project_name commit_hash : string)
      (version : Z) (description : string)
  | CallSync (project_id commit_hash : string) (version : Z)
      (description : string) (file_manifest : list string)
  | CallStatus (project_id : string).

Definition api_perform (c : api_call) : M (Z * payload) :=
  match c with
  | CallRegister project_id project_name commit_hash version description =>
      GudoaiApiClient.register_project project_id project_name commit_hash
        version description
  | CallSync project_id commit_hash version description file_manifest =>
      GudoaiApiClient.sync_project project_id commit_hash version description
        file_manifest
  | CallStatus project_id => GudoaiApiClient.get_project_status project_id
  end.

Fixpoint api_perform_all (l : list api_call) (st : state) : state :=
  match l with
  | [] => st
  | c :: l => api_perform_all l (api_perform c st).2
  end.

(** A client constructed now would load the dictionary held in memory. *)
Definition persisted (st : state) : Prop :=
  (GudoaiApiClient._load_projects st).1 = Return (projects st).

(** Every stored record carries the id it is stored under. *)
Definition well_keyed (d : gmap string RegistryRecord.t) : Prop :=
  ∀ id r, d !! id = Some r → RegistryRecord.project_id r = id.

(** ** Successive orchestrator calls of any kind *)

Inductive step : Type :=
  | Act (a : action)
  | InitProject (env : GudoaiCoreRest.environment) (project_name : string)
  | CreateFeatureBranch (project_name branch_name : string)
  | MergeToMain (project_name feature_branch_name : string)
  | CheckApiStatus (project_name : string).

Definition after_step (s : step) (st : state) : state :=
  match s with
  | Act a => (perform a st).2
  | InitProject env project_name =>
      (GudoaiCoreRest.init_project env project_name st).2
  | CreateFeatureBranch project_name branch_name =>
      (GudoaiCore.create_feature_branch project_name branch_name st).2
  | MergeToMain project_name feature_branch_name =>
      (GudoaiCore.merge_to_main project_name feature_branch_name st).2
  | CheckApiStatus project_name =>
      (GudoaiCoreRest.check_api_status project_name st).2
  end.

Fixpoint after_steps (l : list step) (st : state) : state :=
  match l with
  | [] => st
  | s :: l => after_steps l (after_step s st)
  end.

(** ** Text that [git] prints *)

(** Lines each ended by a newline, as [git ls-files] prints names. *)
Fixpoint unlines (names : list string) : string :=
  match names with
  | [] => ""
  | n :: names => n +:+ String Py.newline (unlines names)
  end.

(** [sep.join(l)] for a one-character separator. *)
Fixpoint join (sep : ascii) (l : list string) : string :=
  match l with
  | [] => ""
  | [s] => s
  | s :: l => s +:+ String sep (join sep l)
  end.

Fixpoint contains (c : ascii) (s : string) : bool :=
  match s with
  | EmptyString => false
  | String c' s' => Ascii.eqb c' c || contains c s'
  end.

(** The text begins with a character that is not whitespace. *)
Definition starts_plain (s : string) : bool :=
  match s with
  | EmptyString => false
  | String c _ => negb (Py.is_space c)
  end.

(** The text ends with a character that is not whitespace. *)
Fixpoint ends_plain (s : string) : bool :=
  match s with
  | EmptyString => false
  | String c EmptyString => negb (Py.is_space c)
  | String _ s' => ends_plain s'
  end.

(** ** More sample data *)

Module Scenario.

(** A tool that always succeeds and prints nothing of interest. *)
Definition git_fine : oracle := λ _ _ _, Sample.exited 0 "" "".

(** A repository without any commit: [rev-parse HEAD] fails. *)
Definition git_no_head : oracle := λ _ _ args,
  match args with
  | ["git"; "rev-parse"; "HEAD"] => Sample.exited 128 "" "fatal: bad HEAD"
  | _ => Sample.exited 0 "" ""
  end.

(** A repository whose index is locked: [git add] fails. *)
Definition git_no_add : oracle := λ _ _ args,
  match args with
  | ["git"; "add"; _] => Sample.exited 128 "" "fatal: index.lock"
  | _ => Sample.exited 0 "" ""
  end.

(** A directory in which [git init] fails. *)
Definition git_no_init : oracle := λ _ _ args,
  match args with
  | ["git"; "init"] => Sample.exited 1 "" "fatal: cannot mkdir"
  | _ => Sample.exited 0 "" ""
  end.

Definition env_free : GudoaiCoreRest.environment :=
  {| GudoaiCoreRest.path_exists := λ _, false;
     GudoaiCoreRest.uuid4 := "id-1" |}.

Definition env_taken : GudoaiCoreRest.environment :=
  {| GudoaiCoreRest.path_exists := λ _, true;
     GudoaiCoreRest.uuid4 := "id-2" |}.

(** No project, no registry. *)
Definition nothing (g : oracle) : state := State ∅ None ∅ [] g.

(** A metadata file that is not JSON. *)
Definition garbled : state :=
  State {[ "demo/gudoai_meta.json" := NotJson ]} None ∅ [] Sample.git_ok.

(** Registered locally, but the registry's database file is gone. *)
Definition lost : state :=
  State (meta_files Sample.registered) None (projects Sample.registered) []
    Sample.git_ok.

Definition registered_meta : ProjectMetadata.t :=
  GudoaiCore.registered_at
    (GudoaiCore.with_description_bumped Sample.meta0 "x") "abc123".

Definition registered_record : RegistryRecord.t :=
  GudoaiApiClient.new_record "id-1" "demo" "abc123" 1 "x".

Definition calls : list api_call :=
  [CallRegister "id-1" "demo" "abc123" 1 "x";
   CallSync "id-1" "def456" 5 "y" ["a.txt"];
   CallRegister "id-1" "other" "000000" 9 "z";
   CallStatus "id-7";
   CallSync "id-1" "fff999" 3 "stale" []].

Definition steps : list step :=
  [Act (SyncProject "demo"); CheckApiStatus "demo"; Act NewProcess;
   MergeToMain "demo" "login"; Act (UpdateMetadata "demo" "y");
   CreateFeatureBranch "demo" "login"; Act (SyncProject "demo")].

Definition tracked : list string := ["gudoai_meta.json"; "README.md"].

End Scenario.

(** ** Proof support *)

Lemma split_not_nil (sep : ascii) (s : string) : Py.split sep s ≠ [].
Proof.
  destruct s as [|c s]; cbn; [done|].
  destruct (Ascii.eqb c sep); [done|]. by destruct (Py.split sep s).
Qed.

Lemma bind_unfold {A B} (c : M A) (f : A → M B) st :
  (c ≫= f) st = match c st with
                | (Return a, st') => f a st'
                | (Raise e, st') => (Raise e, st')
                end.
Proof. reflexivity. Qed.

Ltac unfold_api :=
  unfold GudoaiApiClient.register_project, GudoaiApiClient.sync_project,
    GudoaiApiClient.get_project_status, GudoaiApiClient.respond,
    GudoaiApiClient._save_projects, GudoaiApiClient.__init__,
    GudoaiApiClient._load_projects in *.

Ltac unfold_monad :=
  unfold mbind, mret, M_bind, M_ret, gets, modify, raise in *;
  cbn [fst snd projects meta_files db_file trace git
       log set_projects set_db_file set_meta_files] in *.

(** ** The embedding at work *)

Module Examples.

Example strip_removes_both_ends :
  Py.strip ("  " +:+ Sample.line "abc123") = "abc123".
Proof. reflexivity. Qed.

Example split_on_newlines :
  Py.split Py.newline (Sample.line "a" +:+ "b") = ["a"; "b"].
Proof. reflexivity. Qed.

Example meta_path_of_demo :
  GudoaiCore.meta_path "demo" = "demo/gudoai_meta.json"
  ∧ GudoaiCore.meta_path "demo/" = "demo/gudoai_meta.json".
Proof. split; reflexivity. Qed.

(** What the short session leaves on disk and in the registry: the second
    [sync_project] sent the stored version and was turned down. *)
Example session_outcome :
  let st := perform_all Sample.session Sample.fresh in
  meta_files st !! "demo/gudoai_meta.json"
    = Some (Json (ProjectMetadata.Build "id-1" 3 "y" (Some "abc123") true))
  ∧ projects st !! "id-1"
    = Some (RegistryRecord.Build "id-1" "demo" "abc123" 2 "x"
              ["gudoai_meta.json"; "README.md"] (Some "abc123") false)
  ∧ api_statuses (trace st) = [201; 200; 400]
  ∧ db_file st = Some (DbJson (projects st)).
Proof. repeat split; reflexivity. Qed.

End Examples.

(** ** The mock registry *)

Module RegistryFacts.

(** C3. [register_project] of the registry answers 409 for a known id and
    leaves the dictionary and its file as they were; for an unknown id it
    stores a fresh record with the given id, name, commit hash, version and
    description, an empty manifest, no synced commit and [is_deployed]
    false, touches no other entry, saves the dictionary and answers 201. *)
Theorem register_project_outcomes (st : state)
    (id name hash : string) (version : Z) (descr : string) :
  let out := GudoaiApiClient.register_project id name hash version descr st in
  (is_Some (projects st !! id) →
     out.1 = Return (409, PError "Project ID already registered")
     ∧ projects out.2 = projects st
     ∧ db_file out.2 = db_file st
     ∧ meta_files out.2 = meta_files st)
  ∧ (projects st !! id = None →
     out.1 = Return (201, PRegistered id)
     ∧ (∃ r, projects out.2 !! id = Some r
          ∧ RegistryRecord.project_id r = id
          ∧ RegistryRecord.project_name r = name
          ∧ RegistryRecord.commit_hash r = hash
          ∧ RegistryRecord.version r = version
          ∧ RegistryRecord.description r = descr
          ∧ RegistryRecord.file_manifest r = []
          ∧ RegistryRecord.last_synced_commit r = None
          ∧ RegistryRecord.is_deployed r = false)
     ∧ (∀ id', id' ≠ id → projects out.2 !! id' = projects st !! id')
     ∧ db_file out.2 = Some (DbJson (projects out.2))).
Proof.
  intros out. subst out. unfold_api. unfold_monad. split.
  - intros [r Hr]. rewrite Hr. cbn. done.
  - intros Hr. rewrite Hr. cbn. split; [done|]. split.
    + eexists. rewrite lookup_insert_eq. split; [reflexivity|]. cbn. done.
    + split; [|done]. intros id' Hne. by rewrite lookup_insert_ne.
Qed.

(** C2. [sync_project] of the registry answers 400 when the id is known
    and the version sent does not exceed the stored one, and 404 when the
    id is unknown; in both cases the dictionary, hence every stored record,
    and the database file stay as they were. *)
Theorem sync_project_rejections (st : state)
    (id hash : string) (version : Z) (descr : string) (manifest : list string) :
  let out := GudoaiApiClient.sync_project id hash version descr manifest st in
  (∀ r, projects st !! id = Some r → version ≤ RegistryRecord.version r →
     out.1 = Return (400, PError
               "Stale data: metadata_version must be greater than current.")
     ∧ projects out.2 = projects st
     ∧ projects out.2 !! id = Some r
     ∧ db_file out.2 = db_file st)
  ∧ (projects st !! id = None →
     out.1 = Return (404, PError "Project not found")
     ∧ projects out.2 = projects st
     ∧ db_file out.2 = db_file st).
Proof.
  intros out. subst out. unfold_api. unfold_monad. split.
  - intros r Hr Hle. rewrite Hr. destruct (decide _) as [_|Hn]; [|lia].
    cbn. done.
  - intros Hr. rewrite Hr. cbn. done.
Qed.

(** C6. [sync_project] of the registry with a version above the stored
    one answers 200, and [get_project_status] then answers 200 with a
    record that carries the commit hash, version, description and manifest
    of the call and has [last_synced_commit] equal to that commit hash;
    a client constructed afterwards from the database file answers the
    same. *)
Theorem sync_project_then_status (st : state)
    (id hash : string) (version : Z) (descr : string) (manifest : list string)
    (r : RegistryRecord.t) :
  projects st !! id = Some r →
  RegistryRecord.version r < version →
  let out := GudoaiApiClient.sync_project id hash version descr manifest st in
  out.1 = Return (200, PSynced hash)
  ∧ ∃ r',
      (GudoaiApiClient.get_project_status id out.2).1
        = Return (200, PRecord r')
      ∧ ((GudoaiApiClient.__init__;;
          GudoaiApiClient.get_project_status id) out.2).1
        = Return (200, PRecord r')
      ∧ RegistryRecord.commit_hash r' = hash
      ∧ RegistryRecord.version r' = version
      ∧ RegistryRecord.description r' = descr
      ∧ RegistryRecord.file_manifest r' = manifest
      ∧ RegistryRecord.last_synced_commit r' = Some hash.
Proof.
  intros Hr Hlt out. subst out. unfold_api. unfold_monad.
  rewrite Hr. destruct (decide _) as [Hle|_]; [lia|]. cbn.
  split; [done|].
  eexists. rewrite lookup_insert_eq. cbn. done.
Qed.

Lemma register_project_outcomes_witness :
  is_Some (projects Sample.registered !! "id-1")
  ∧ projects Sample.fresh !! "id-1" = None
  ∧ (GudoaiApiClient.register_project "id-1" "demo" "abc123" 1 "x"
       Sample.registered).1
    = Return (409, PError "Project ID already registered")
  ∧ (GudoaiApiClient.register_project "id-1" "demo" "abc123" 1 "x"
       Sample.fresh).1
    = Return (201, PRegistered "id-1").
Proof.
  assert (Hknown : is_Some (projects Sample.registered !! "id-1")).
  { eexists. reflexivity. }
  split; [exact Hknown|]. split; [reflexivity|]. split.
  - exact (proj1 (proj1 (register_project_outcomes Sample.registered
                           "id-1" "demo" "abc123" 1 "x") Hknown)).
  - exact (proj1 (proj2 (register_project_outcomes Sample.fresh
                           "id-1" "demo" "abc123" 1 "x") eq_refl)).
Defined.

Lemma sync_project_rejections_witness :
  (∃ r, projects Sample.registered !! "id-1" = Some r
        ∧ 1 ≤ RegistryRecord.version r)
  ∧ projects Sample.fresh !! "id-1" = None
  ∧ (GudoaiApiClient.sync_project "id-1" "def456" 1 "y" ["a.txt"]
       Sample.registered).1
    = Return (400, PError
        "Stale data: metadata_version must be greater than current.")
  ∧ (GudoaiApiClient.sync_project "id-1" "def456" 1 "y" ["a.txt"]
       Sample.fresh).1
    = Return (404, PError "Project not found").
Proof.
  split; [eexists; split; [reflexivity|cbn; lia]|].
  split; [reflexivity|]. split.
  - refine (proj1 (proj1 (sync_project_rejections Sample.registered
                            "id-1" "def456" 1 "y" ["a.txt"]) _ eq_refl _)).
    cbn. lia.
  - exact (proj1 (proj2 (sync_project_rejections Sample.fresh
                           "id-1" "def456" 1 "y" ["a.txt"]) eq_refl)).
Defined.

Lemma sync_project_then_status_witness :
  (∃ r, projects Sample.registered !! "id-1" = Some r
        ∧ RegistryRecord.version r < 2)
  ∧ (GudoaiApiClient.sync_project "id-1" "def456" 2 "y" ["a.txt"]
       Sample.registered).1
    = Return (200, PSynced "def456").
Proof.
  split; [eexists; split; [reflexivity|cbn; lia]|].
  refine (proj1 (sync_project_then_status Sample.registered
                   "id-1" "def456" 2 "y" ["a.txt"] _ eq_refl _)).
  cbn. lia.
Defined.

End RegistryFacts.

(** ** The orchestrator *)

Ltac unfold_core :=
  unfold GudoaiCore.register_project, GudoaiCore.sync_project,
    GudoaiCore.update_metadata, GudoaiCore.load_meta,
    GudoaiCore._get_current_commit_hash, GudoaiCore._get_tracked_files,
    GudoaiCore.merge_to_main, GudoaiCore.create_feature_branch,
    GudoaiCore.__init__, run_checked, run, dump_meta in *.

Ltac unfold_all := unfold_core; unfold_api; unfold_monad.

Ltac reduce_state :=
  cbn [fst snd negb projects meta_files db_file trace git
       log set_projects set_db_file set_meta_files] in *.

(** Name the completed process of each subprocess call, innermost call
    first, and reuse the name when the same call shows up again. *)
Ltac name_process :=
  match goal with
  | |- context [git ?s ?t ?c ?a] =>
      lazymatch t with context [git _ _ _ _] => fail | _ => idtac end;
      lazymatch goal with
      | H : ?r = git s t c a |- _ => rewrite <- H
      | _ =>
          let r := fresh "r" in
          let H := fresh "Hr" in
          remember (git s t c a) as r eqn:H in *
      end
  end.

Ltac forget_processes := repeat name_process.

(** One case per path through a method. *)
Ltac split_step :=
  first
    [ match goal with
      | |- context [match ?m !! ?k with _ => _ end] =>
          let E := fresh "Hlook" in destruct (m !! k) eqn:E
      | |- context [match ?f with NotJson => _ | Json _ => _ end] =>
          destruct f
      | |- context [decide ?P] => destruct (decide P)
      | |- context [if ProjectMetadata.api_registered ?m then _ else _] =>
          let E := fresh "Hreg" in
          destruct (ProjectMetadata.api_registered m) eqn:E
      | |- context [negb (ProjectMetadata.api_registered ?m)] =>
          let E := fresh "Hreg" in
          destruct (ProjectMetadata.api_registered m) eqn:E
      end ]; reduce_state; try discriminate; try contradiction;
  try congruence.

Ltac split_run := repeat (forget_processes; split_step); forget_processes.

(** Drop what is known about the completed processes. *)
Ltac anonymous_processes :=
  repeat match goal with
         | H : _ = git _ _ _ _ |- _ => clear H
         | H : returncode _ = _ |- _ => clear H
         | H : returncode _ ≠ _ |- _ => clear H
         | H : ¬ returncode _ ≠ _ |- _ => clear H
         end.

(** Compute the effects of the path at hand. *)
Ltac events :=
  unfold new_events; reduce_state;
  repeat rewrite <- (assoc_L (++));
  first [ rewrite drop_app_length | rewrite drop_all ];
  cbn [app api_statuses meta_writes commands omap list_omap].

Module CoreFacts.

(** C7. On a metadata file that parses, [update_metadata] writes a record
    with the given description and the version raised by exactly one, so
    strictly above its prior value whatever that was, and with the same
    [project_id], [last_api_sync_commit_hash] and [api_registered]; this
    holds whatever the two version-control commands then answer. *)
Theorem update_metadata_bumps_version (st : state)
    (name new_description : string) (m : ProjectMetadata.t) :
  meta_files st !! GudoaiCore.meta_path name = Some (Json m) →
  let st' := (GudoaiCore.update_metadata name new_description st).2 in
  ∃ m',
    meta_files st' !! GudoaiCore.meta_path name = Some (Json m')
    ∧ meta_writes (new_events st st') = [(GudoaiCore.meta_path name, m')]
    ∧ ProjectMetadata.description m' = new_description
    ∧ ProjectMetadata.version m' = ProjectMetadata.version m + 1
    ∧ ProjectMetadata.version m < ProjectMetadata.version m'
    ∧ ProjectMetadata.project_id m' = ProjectMetadata.project_id m
    ∧ ProjectMetadata.last_api_sync_commit_hash m'
      = ProjectMetadata.last_api_sync_commit_hash m
    ∧ ProjectMetadata.api_registered m' = ProjectMetadata.api_registered m.
Proof.
  intros Hm st'. subst st'.
  exists (GudoaiCore.with_description_bumped m new_description).
  unfold_all. rewrite Hm. reduce_state.
  split_run; events; rewrite lookup_insert_eq; cbn; repeat split; lia.
Qed.

(** C9. [merge_to_main] raises when the checkout of the main branch exits
    with a non-zero code, and then runs no merge; when the checkout
    succeeds it returns [False] without raising if the merge exits with a
    non-zero code and [True] if the merge exits with zero. *)
Theorem merge_to_main_outcomes (st : state) (name branch : string) :
  let checkout := git st (trace st) name ["git"; "checkout"; "master"] in
  let st1 := log (EvRun name ["git"; "checkout"; "master"] checkout) st in
  let merge :=
    git st (trace st1) name ["git"; "merge"; "feature/" +:+ branch] in
  let out := GudoaiCore.merge_to_main name branch st in
  (returncode checkout ≠ 0 →
     out = (Raise (RuntimeError ("Failed to switch to main branch: "
                                 +:+ stderr checkout)), st1))
  ∧ (returncode checkout = 0 → returncode merge ≠ 0 → out.1 = Return false)
  ∧ (returncode checkout = 0 → returncode merge = 0 → out.1 = Return true).
Proof.
  intros checkout st1 merge out. subst out merge st1 checkout.
  unfold_all. repeat split; intros; split_run; done.
Qed.

(** C4. When the registry answers 201 to [register_project], the metadata
    file then holds [api_registered] true and, as
    [last_api_sync_commit_hash], the commit hash that was passed to the
    registry; when the metadata file already has [api_registered] true,
    [register_project] raises and leaves the whole state, history included,
    as it was, so the registry is not called. *)
Theorem register_project_local_effect (st : state) (name : string) :
  let out := GudoaiCore.register_project name st in
  let evs := new_events st out.2 in
  (201 ∈ api_statuses evs →
     ∃ m' hash,
       meta_files out.2 !! GudoaiCore.meta_path name = Some (Json m')
       ∧ ProjectMetadata.api_registered m' = true
       ∧ ProjectMetadata.last_api_sync_commit_hash m' = Some hash
       ∧ (∃ id v d, EvApiRegister id name hash v d 201 ∈ evs)
       ∧ (∀ id nm h v d s, EvApiRegister id nm h v d s ∈ evs → h = hash))
  ∧ (∀ m, meta_files st !! GudoaiCore.meta_path name = Some (Json m) →
          ProjectMetadata.api_registered m = true →
          out = (Raise (ValueError "Project already registered with the API."),
                 st)
          ∧ evs = []).
Proof.
  intros out evs. subst evs out. split.
  - unfold_all. split_run; events; intros Hin;
      try (by apply elem_of_nil in Hin);
      try (by apply list_elem_of_singleton in Hin).
    all: eexists _, _; rewrite lookup_insert_eq.
    all: split; [reflexivity|]; split; [reflexivity|]; split; [reflexivity|].
    all: split; [eexists _, _, _; do 2 apply list_elem_of_further;
                 apply list_elem_of_here|].
    all: intros ? ? ? ? ? ? Hev; rewrite !elem_of_cons, elem_of_nil in Hev;
      intuition congruence.
  - intros m Hm Hreg. unfold_all. rewrite Hm, Hreg. reduce_state.
    split; [done|]. unfold new_events. apply drop_all.
Qed.

(** C1. When the registry does not answer 201 to [register_project], or
    does not answer 200 to [sync_project], the orchestrator leaves every
    metadata file as it was, writes none, and runs no command besides the
    queries [rev-parse] and [ls-files], so stages and commits nothing; any
    write of a metadata file comes after the registry has answered with
    that success code. *)
Theorem registry_failure_keeps_metadata (st : state) (name : string) :
  (let st' := (GudoaiCore.register_project name st).2 in
   let evs := new_events st st' in
   (201 ∉ api_statuses evs →
      meta_files st' = meta_files st
      ∧ meta_writes evs = []
      ∧ ∀ args, args ∈ commands evs → args = ["git"; "rev-parse"; "HEAD"])
   ∧ (∀ pre p m post, evs = (pre ++ EvWriteMeta p m :: post)%list →
        201 ∈ api_statuses pre))
  ∧ (let st' := (GudoaiCore.sync_project name st).2 in
     let evs := new_events st st' in
     (200 ∉ api_statuses evs →
        meta_files st' = meta_files st
        ∧ meta_writes evs = []
        ∧ ∀ args, args ∈ commands evs →
            args = ["git"; "rev-parse"; "HEAD"] ∨ args = ["git"; "ls-files"])
     ∧ (∀ pre p m post, evs = (pre ++ EvWriteMeta p m :: post)%list →
          200 ∈ api_statuses pre)).
Proof.
  split; intros st' evs; subst evs st'; unfold_all.
  all: split_run; events; anonymous_processes.
  all: split;
    [ intros Hno;
      first [ by (exfalso; apply Hno; apply list_elem_of_here)
            | (split; [reflexivity|]; split; [reflexivity|];
               intros args Hin; rewrite ?elem_of_cons, ?elem_of_nil in Hin;
               tauto) ]
    | intros pre p m' post Hev;
      repeat (destruct pre as [|? pre]; simplify_eq/=);
      try (by destruct post); apply list_elem_of_here ].
Qed.

(** C10. When [git ls-files] succeeds with empty output,
    [_get_tracked_files] returns the one-element list holding the empty
    string; it never returns the empty list; and the manifest that
    [sync_project] passes to the registry is the list returned by
    [_get_tracked_files] once [rev-parse] has run, which is also
    the [file_manifest] of the stored record when the registry answers
    200. *)
Theorem tracked_files_of_empty_output (st : state) (name : string) :
  let ls := git st (trace st) name ["git"; "ls-files"] in
  (returncode ls = 0 → stdout ls = "" →
     (GudoaiCore._get_tracked_files name st).1 = Return [""])
  ∧ (GudoaiCore._get_tracked_files name st).1 ≠ Return []
  ∧ (let head := ["git"; "rev-parse"; "HEAD"] in
     let st1 := log (EvRun name head (git st (trace st) name head)) st in
     let st' := (GudoaiCore.sync_project name st).2 in
     ∀ id h v d manifest s,
       EvApiSync id h v d manifest s ∈ new_events st st' →
       (GudoaiCore._get_tracked_files name st1).1 = Return manifest
       ∧ manifest ≠ []
       ∧ (s = 200 →
          ∃ r, projects st' !! id = Some r
               ∧ RegistryRecord.file_manifest r = manifest)).
Proof.
  intros ls. subst ls. split; [|split].
  - intros Hrc Hout. unfold_all. rewrite Hout.
    destruct (decide _) as [Hne|_]; [done|]. reflexivity.
  - unfold_all. destruct (decide _); [done|]. cbn.
    intros [= Hnil]. by apply split_not_nil in Hnil.
  - intros head st1 st'. subst st1 st' head. unfold_all.
    split_run; events; intros id h v d manifest s Hev.
    all: rewrite ?elem_of_cons, ?elem_of_nil in Hev.
    all: repeat match goal with
                | H : _ ∨ _ |- _ => destruct H
                | H : False |- _ => destruct H
                end; simplify_eq.
    all: (split; [reflexivity|]); (split; [apply split_not_nil|]).
    all: intros Hs; try discriminate.
    all: eexists; rewrite lookup_insert_eq; split; reflexivity.
Qed.

(** What an accepted registration leaves behind. *)
Lemma register_project_accepted (st : state) (name : string)
    (m : ProjectMetadata.t) :
  meta_files st !! GudoaiCore.meta_path name = Some (Json m) →
  ProjectMetadata.api_registered m = false →
  projects st !! ProjectMetadata.project_id m = None →
  let head := git st (trace st) name ["git"; "rev-parse"; "HEAD"] in
  returncode head = 0 →
  let hash := Py.strip (stdout head) in
  let st1 := (GudoaiCore.register_project name st).2 in
  meta_files st1
    = <[GudoaiCore.meta_path name := Json (GudoaiCore.registered_at m hash)]>
        (meta_files st)
  ∧ projects st1
    = <[ProjectMetadata.project_id m :=
          GudoaiApiClient.new_record (ProjectMetadata.project_id m) name hash
            (ProjectMetadata.version m) (ProjectMetadata.description m)]>
        (projects st)
  ∧ db_file st1 = Some (DbJson (projects st1))
  ∧ git st1 = git st.
Proof.
  intros Hm Hreg Hid head Hrc hash st1. subst st1 hash head.
  unfold_all. rewrite Hm, Hreg. reduce_state.
  split_run; done.
Qed.

(** A sync that sends a version above the stored one is accepted. *)
Lemma sync_project_accepted (st : state) (name : string)
    (m : ProjectMetadata.t) (r : RegistryRecord.t) :
  meta_files st !! GudoaiCore.meta_path name = Some (Json m) →
  ProjectMetadata.api_registered m = true →
  projects st !! ProjectMetadata.project_id m = Some r →
  RegistryRecord.version r < ProjectMetadata.version m →
  (∀ tr, returncode (git st tr name ["git"; "rev-parse"; "HEAD"]) = 0) →
  (∀ tr, returncode (git st tr name ["git"; "ls-files"]) = 0) →
  let evs := new_events st (GudoaiCore.sync_project name st).2 in
  api_statuses evs = [200]
  ∧ ∃ h d manifest,
      EvApiSync (ProjectMetadata.project_id m) h (ProjectMetadata.version m)
        d manifest 200 ∈ evs.
Proof.
  intros Hm Hreg Hid Hlt Hhead Hls evs. subst evs.
  unfold_all. rewrite Hm, Hreg. reduce_state.
  split_run; simplify_eq; try lia.
  all: try (exfalso;
            match goal with
            | Hn : returncode ?p ≠ 0, Hp : ?p = git _ _ _ _ |- _ =>
                apply Hn; rewrite Hp; auto
            end).
  all: events; (split; [reflexivity|]); eexists _, _, _.
  all: do 3 apply list_elem_of_further; apply list_elem_of_here.
Qed.

Lemma new_process_reloads (st : state) :
  db_file st = Some (DbJson (projects st)) →
  GudoaiCore.__init__ st = (Return tt, st).
Proof.
  intros Hdb. unfold_all. rewrite Hdb. by destruct st.
Qed.

(** C5. After a registration that the registry accepts, the stored
    record carries the version the metadata file held before, and the
    metadata file holds that version plus one; a [sync_project] that
    follows at once, in the same process or in a new one, therefore sends
    a version above the stored one and is answered 200, whereas a sync
    that sends the stored version itself is answered 400. *)
Theorem version_offset_after_registration (st : state) (name : string)
    (m : ProjectMetadata.t) :
  meta_files st !! GudoaiCore.meta_path name = Some (Json m) →
  ProjectMetadata.api_registered m = false →
  projects st !! ProjectMetadata.project_id m = None →
  (∀ tr, returncode (git st tr name ["git"; "rev-parse"; "HEAD"]) = 0) →
  (∀ tr, returncode (git st tr name ["git"; "ls-files"]) = 0) →
  let id := ProjectMetadata.project_id m in
  let st1 := (GudoaiCore.register_project name st).2 in
  ∃ r m1,
    projects st1 !! id = Some r
    ∧ meta_files st1 !! GudoaiCore.meta_path name = Some (Json m1)
    ∧ RegistryRecord.version r = ProjectMetadata.version m
    ∧ ProjectMetadata.version m1 = RegistryRecord.version r + 1
    ∧ (∀ next : M unit,
         next = GudoaiCore.sync_project name
         ∨ next = (GudoaiCore.__init__;; GudoaiCore.sync_project name) →
         let evs := new_events st1 (next st1).2 in
         api_statuses evs = [200]
         ∧ ∃ h d manifest,
             EvApiSync id h (ProjectMetadata.version m1) d manifest 200 ∈ evs)
    ∧ (∀ h d manifest,
         (GudoaiApiClient.sync_project id h (RegistryRecord.version r)
            d manifest st1).1
         = Return (400, PError
             "Stale data: metadata_version must be greater than current.")).
Proof.
  intros Hm Hreg Hid Hhead Hls id st1.
  destruct (register_project_accepted st name m Hm Hreg Hid (Hhead _))
    as (Hfiles & Hprojects & Hdb & Hgit).
  fold st1 in Hfiles, Hprojects, Hdb, Hgit.
  set (hash := Py.strip _) in Hfiles, Hprojects.
  eexists _, (GudoaiCore.registered_at m hash).
  split; [rewrite Hprojects; apply lookup_insert_eq|].
  split; [rewrite Hfiles; apply lookup_insert_eq|].
  split; [reflexivity|]. split; [reflexivity|]. split.
  - assert (Hsync : let evs :=
                      new_events st1 (GudoaiCore.sync_project name st1).2 in
                    api_statuses evs = [200]
                    ∧ ∃ h d manifest,
                        EvApiSync id h
                          (ProjectMetadata.version
                             (GudoaiCore.registered_at m hash))
                          d manifest 200 ∈ evs).
    { eapply (sync_project_accepted st1 name
                (GudoaiCore.registered_at m hash)).
      - rewrite Hfiles. apply lookup_insert_eq.
      - reflexivity.
      - rewrite Hprojects. apply lookup_insert_eq.
      - cbn. lia.
      - rewrite Hgit. apply Hhead.
      - rewrite Hgit. apply Hls. }
    intros next [-> | ->]; [exact Hsync|].
    rewrite bind_unfold, (new_process_reloads st1 Hdb). exact Hsync.
  - intros h d manifest. unfold_api. unfold_monad.
    rewrite Hprojects, lookup_insert_eq. cbn.
    destruct (decide _) as [_|Hn]; [reflexivity|lia].
Qed.

Lemma update_metadata_bumps_version_witness :
  meta_files Sample.fresh !! GudoaiCore.meta_path "demo"
    = Some (Json Sample.meta0)
  ∧ ∃ m',
      meta_files Sample.updated !! GudoaiCore.meta_path "demo"
        = Some (Json m')
      ∧ ProjectMetadata.description m' = "x"
      ∧ ProjectMetadata.version m' = 1
      ∧ ProjectMetadata.api_registered m' = false.
Proof.
  split; [reflexivity|].
  destruct (update_metadata_bumps_version Sample.fresh "demo" "x"
              Sample.meta0 eq_refl)
    as (m' & Hfile & _ & Hdescr & Hversion & _ & _ & _ & Hreg).
  exists m'. split; [exact Hfile|]. split; [exact Hdescr|].
  split; [exact Hversion|exact Hreg].
Defined.

Lemma merge_to_main_outcomes_witness :
  (GudoaiCore.merge_to_main "demo" "login"
     (Sample.with_git Sample.git_no_master Sample.fresh)).1
    = Raise (RuntimeError "Failed to switch to main branch: error: pathspec")
  ∧ (GudoaiCore.merge_to_main "demo" "login"
       (Sample.with_git Sample.git_conflict Sample.fresh)).1
    = Return false
  ∧ (GudoaiCore.merge_to_main "demo" "login" Sample.fresh).1 = Return true.
Proof.
  split; [|split].
  - refine (f_equal fst
              (proj1 (merge_to_main_outcomes
                        (Sample.with_git Sample.git_no_master Sample.fresh)
                        "demo" "login") _)).
    cbn. discriminate.
  - refine (proj1 (proj2 (merge_to_main_outcomes
                            (Sample.with_git Sample.git_conflict Sample.fresh)
                            "demo" "login")) eq_refl _).
    cbn. discriminate.
  - exact (proj2 (proj2 (merge_to_main_outcomes Sample.fresh "demo" "login"))
             eq_refl eq_refl).
Defined.

Lemma register_project_local_effect_witness :
  201 ∈ api_statuses (new_events Sample.updated Sample.registered)
  ∧ (∃ m, meta_files Sample.registered !! GudoaiCore.meta_path "demo"
            = Some (Json m)
          ∧ ProjectMetadata.api_registered m = true)
  ∧ GudoaiCore.register_project "demo" Sample.registered
    = (Raise (ValueError "Project already registered with the API."),
       Sample.registered).
Proof.
  assert (Haccepted :
            201 ∈ api_statuses (new_events Sample.updated Sample.registered)).
  { change (201 ∈ [201]). apply list_elem_of_here. }
  split; [exact Haccepted|].
  destruct (proj1 (register_project_local_effect Sample.updated "demo")
              Haccepted)
    as (m' & hash & Hfile & Hreg & _).
  split; [exists m'; split; [exact Hfile|exact Hreg]|].
  exact (proj1 (proj2 (register_project_local_effect Sample.registered "demo")
                  m' Hfile Hreg)).
Defined.

Lemma registry_failure_keeps_metadata_witness :
  (201 ∉ api_statuses
           (new_events Sample.taken
              (GudoaiCore.register_project "demo" Sample.taken).2))
  ∧ (200 ∉ api_statuses
             (new_events Sample.synced
                (GudoaiCore.sync_project "demo" Sample.synced).2))
  ∧ meta_files (GudoaiCore.register_project "demo" Sample.taken).2
    = meta_files Sample.taken
  ∧ meta_files (GudoaiCore.sync_project "demo" Sample.synced).2
    = meta_files Sample.synced.
Proof.
  assert (Hconflict :
            201 ∉ api_statuses
                    (new_events Sample.taken
                       (GudoaiCore.register_project "demo" Sample.taken).2)).
  { change (201 ∉ [409]). apply not_elem_of_cons.
    split; [discriminate|apply not_elem_of_nil]. }
  assert (Hstale :
            200 ∉ api_statuses
                    (new_events Sample.synced
                       (GudoaiCore.sync_project "demo" Sample.synced).2)).
  { change (200 ∉ [400]). apply not_elem_of_cons.
    split; [discriminate|apply not_elem_of_nil]. }
  split; [exact Hconflict|]. split; [exact Hstale|]. split.
  - exact (proj1 (proj1 (proj1 (registry_failure_keeps_metadata
                                  Sample.taken "demo")) Hconflict)).
  - exact (proj1 (proj1 (proj2 (registry_failure_keeps_metadata
                                  Sample.synced "demo")) Hstale)).
Defined.

Lemma tracked_files_of_empty_output_witness :
  returncode (git Sample.untracked (trace Sample.untracked) "demo"
                ["git"; "ls-files"]) = 0
  ∧ stdout (git Sample.untracked (trace Sample.untracked) "demo"
              ["git"; "ls-files"]) = ""
  ∧ (GudoaiCore._get_tracked_files "demo" Sample.untracked).1 = Return [""]
  ∧ ∃ r, projects (GudoaiCore.sync_project "demo" Sample.untracked).2
           !! "id-1" = Some r
         ∧ RegistryRecord.file_manifest r = [""].
Proof.
  split; [reflexivity|]. split; [reflexivity|]. split.
  - exact (proj1 (tracked_files_of_empty_output Sample.untracked "demo")
             eq_refl eq_refl).
  - refine (proj2 (proj2 (proj2 (proj2 (tracked_files_of_empty_output
                                          Sample.untracked "demo"))
                            "id-1" "abc123" 2 "x" [""] 200 _)) eq_refl).
    unfold new_events. cbn.
    do 3 apply list_elem_of_further. apply list_elem_of_here.
Defined.

Lemma version_offset_after_registration_witness :
  (∃ m, meta_files Sample.updated !! GudoaiCore.meta_path "demo"
          = Some (Json m)
        ∧ ProjectMetadata.api_registered m = false
        ∧ projects Sample.updated !! ProjectMetadata.project_id m = None)
  ∧ (∀ tr, returncode (git Sample.updated tr "demo"
                         ["git"; "rev-parse"; "HEAD"]) = 0)
  ∧ (∀ tr, returncode (git Sample.updated tr "demo" ["git"; "ls-files"]) = 0)
  ∧ ∃ r m1,
      projects Sample.registered !! "id-1" = Some r
      ∧ meta_files Sample.registered !! GudoaiCore.meta_path "demo"
        = Some (Json m1)
      ∧ ProjectMetadata.version m1 = RegistryRecord.version r + 1
      ∧ api_statuses (new_events Sample.registered Sample.synced) = [200].
Proof.
  split.
  { exists (GudoaiCore.with_description_bumped Sample.meta0 "x").
    split; [reflexivity|]. split; reflexivity. }
  split; [intros tr; reflexivity|]. split; [intros tr; reflexivity|].
  destruct (version_offset_after_registration Sample.updated "demo"
              (GudoaiCore.with_description_bumped Sample.meta0 "x")
              eq_refl eq_refl eq_refl
              (λ tr, eq_refl) (λ tr, eq_refl))
    as (r & m1 & Hrecord & Hfile & _ & Hoffset & Hnext & _).
  exists r, m1. split; [exact Hrecord|]. split; [exact Hfile|].
  split; [exact Hoffset|].
  exact (proj1 (Hnext (GudoaiCore.sync_project "demo") (or_introl eq_refl))).
Defined.

End CoreFacts.

(** ** Invariants of the metadata file *)

Module MetadataFacts.

(** One call, or the start of a new process, keeps a metadata file that
    parses parseable, keeps its version or raises it by one, and keeps
    [api_registered] once it is true. *)
Lemma perform_keeps (a : action) (st : state) (path : string)
    (m : ProjectMetadata.t) :
  meta_files st !! path = Some (Json m) →
  ∃ m',
    meta_files (perform a st).2 !! path = Some (Json m')
    ∧ (ProjectMetadata.version m' = ProjectMetadata.version m
       ∨ ProjectMetadata.version m' = ProjectMetadata.version m + 1)
    ∧ (ProjectMetadata.api_registered m = true →
       ProjectMetadata.api_registered m' = true).
Proof.
  intros Hm. destruct a as [name descr|name|name|]; cbn [perform].
  all: unfold_all; split_run; anonymous_processes.
  all: try (exists m; split; [exact Hm|]; split; [by left|done]).
  all: match goal with
       | |- context [<[?p := _]> _] => destruct (decide (p = path)) as [<-|Hne]
       end.
  all: try (rewrite lookup_insert_ne by done;
            exists m; split; [exact Hm|]; split; [by left|done]).
  all: rewrite lookup_insert_eq; simplify_eq.
  all: eexists; split; [reflexivity|]; cbn; split; auto.
Qed.

(** C8. Through any succession of [update_metadata], [register_project]
    and [sync_project] calls, on this or any other project and across
    process restarts, a metadata file that parses still parses, its
    version is never below what it was, so is strictly above whenever it
    differs, and [api_registered] stays true once it is true. *)
Theorem metadata_invariants (l : list action) (st : state) (path : string)
    (m : ProjectMetadata.t) :
  meta_files st !! path = Some (Json m) →
  ∃ m',
    meta_files (perform_all l st) !! path = Some (Json m')
    ∧ ProjectMetadata.version m ≤ ProjectMetadata.version m'
    ∧ (ProjectMetadata.version m' ≠ ProjectMetadata.version m →
       ProjectMetadata.version m < ProjectMetadata.version m')
    ∧ (ProjectMetadata.api_registered m = true →
       ProjectMetadata.api_registered m' = true).
Proof.
  revert st m. induction l as [|a l IH]; intros st m Hm; cbn [perform_all].
  - exists m. repeat split; [done|lia|lia|done].
  - destruct (perform_keeps a st path m Hm) as (m1 & Hm1 & Hv1 & Hr1).
    destruct (IH _ m1 Hm1) as (m' & Hm' & Hle & _ & Hr').
    exists m'. repeat split; [done|lia|lia|auto].
Qed.

Lemma metadata_invariants_witness :
  meta_files Sample.fresh !! GudoaiCore.meta_path "demo"
    = Some (Json Sample.meta0)
  ∧ ∃ m',
      meta_files (perform_all Sample.session Sample.fresh)
        !! GudoaiCore.meta_path "demo" = Some (Json m')
      ∧ ProjectMetadata.version Sample.meta0 ≤ ProjectMetadata.version m'
      ∧ (ProjectMetadata.version m' ≠ ProjectMetadata.version Sample.meta0 →
         ProjectMetadata.version Sample.meta0 < ProjectMetadata.version m')
      ∧ (ProjectMetadata.api_registered Sample.meta0 = true →
         ProjectMetadata.api_registered m' = true).
Proof.
  split; [reflexivity|].
  exact (metadata_invariants Sample.session Sample.fresh
           (GudoaiCore.meta_path "demo") Sample.meta0 eq_refl).
Defined.

End MetadataFacts.

(** ** More on the mock registry *)

Module RegistryInvariants.

Lemma api_perform_keeps (c : api_call) (st : state) (id : string)
    (r : RegistryRecord.t) :
  projects st !! id = Some r →
  ∃ r',
    projects (api_perform c st).2 !! id = Some r'
    ∧ RegistryRecord.version r ≤ RegistryRecord.version r'
    ∧ RegistryRecord.project_id r' = RegistryRecord.project_id r
    ∧ RegistryRecord.project_name r' = RegistryRecord.project_name r
    ∧ RegistryRecord.is_deployed r' = RegistryRecord.is_deployed r.
Proof.
  intros Hr.
  destruct c as [id' name hash v d|id' hash v d fm|id']; cbn [api_perform].
  all: unfold_api; unfold_monad.
  all: destruct (projects st !! id') as [r0|] eqn:Hid'; cbn.
  all: try (exists r; split; [exact Hr|]; repeat split; lia).
  - exists r. split; [|repeat split; lia].
    rewrite lookup_insert_ne; [exact Hr|]. intros ->. congruence.
  - destruct (decide (v ≤ RegistryRecord.version r0)); cbn.
    + exists r. split; [exact Hr|]. repeat split; lia.
    + destruct (decide (id' = id)) as [->|Hne].
      * rewrite lookup_insert_eq. simplify_eq.
        eexists. split; [reflexivity|]. cbn. repeat split; lia.
      * rewrite lookup_insert_ne by done.
        exists r. split; [exact Hr|]. repeat split; lia.
Qed.

(** X1. Through any succession of registry calls a stored record is never
    removed, its version never decreases, and its [project_id],
    [project_name] and [is_deployed] stay what they were. *)
Theorem registry_calls_keep_records (l : list api_call) (st : state)
    (id : string) (r : RegistryRecord.t) :
  projects st !! id = Some r →
  ∃ r',
    projects (api_perform_all l st) !! id = Some r'
    ∧ RegistryRecord.version r ≤ RegistryRecord.version r'
    ∧ RegistryRecord.project_id r' = RegistryRecord.project_id r
    ∧ RegistryRecord.project_name r' = RegistryRecord.project_name r
    ∧ RegistryRecord.is_deployed r' = RegistryRecord.is_deployed r.
Proof.
  revert st r. induction l as [|c l IH]; intros st r Hr; cbn [api_perform_all].
  - exists r. split; [exact Hr|]. repeat split; lia.
  - destruct (api_perform_keeps c st id r Hr)
      as (r1 & Hr1 & Hv1 & Hid1 & Hname1 & Hdep1).
    destruct (IH _ r1 Hr1) as (r' & Hr' & Hv & Hid & Hname & Hdep).
    exists r'. split; [exact Hr'|]. repeat split; [lia|congruence..].
Qed.

Lemma api_perform_persisted (c : api_call) (st : state) :
  persisted st → persisted (api_perform c st).2.
Proof.
  unfold persisted. intros Hp.
  destruct c as [id' name hash v d|id' hash v d fm|id']; cbn [api_perform].
  all: unfold_api; unfold_monad.
  all: destruct (projects st !! id') as [r0|] eqn:Hid'; cbn; try exact Hp.
  - reflexivity.
  - destruct (decide (v ≤ RegistryRecord.version r0)); cbn;
      [exact Hp|reflexivity].
Qed.

(** X2. A client just constructed holds what the database file holds, and
    this stays so through any succession of registry calls: a client
    constructed at any later moment loads exactly the dictionary the
    running client has in memory. *)
Theorem registry_calls_keep_file_current (l : list api_call) (st : state) :
  persisted (GudoaiApiClient.__init__ st).2
  ∧ (persisted st →
     persisted (api_perform_all l st)
     ∧ projects ((GudoaiApiClient.__init__ (api_perform_all l st)).2)
       = projects (api_perform_all l st)).
Proof.
  split.
  - unfold persisted. unfold_api. unfold_monad.
    by destruct (db_file st) as [[|d]|].
  - intros Hp.
    assert (Hall : persisted (api_perform_all l st)).
    { revert st Hp. induction l as [|c l IH]; intros st Hp; [exact Hp|].
      cbn [api_perform_all]. apply IH, api_perform_persisted, Hp. }
    split; [exact Hall|].
    unfold persisted in Hall. unfold_api. unfold_monad.
    cbn in Hall. by injection Hall.
Qed.

Lemma api_perform_well_keyed (c : api_call) (st : state) :
  well_keyed (projects st) → well_keyed (projects (api_perform c st).2).
Proof.
  unfold well_keyed. intros Hk.
  destruct c as [id' name hash v d|id' hash v d fm|id']; cbn [api_perform].
  all: unfold_api; unfold_monad.
  all: destruct (projects st !! id') as [r0|] eqn:Hid'; cbn; try exact Hk.
  - intros id r. destruct (decide (id' = id)) as [->|Hne].
    + rewrite lookup_insert_eq. by intros [= <-].
    + rewrite lookup_insert_ne by done. apply Hk.
  - destruct (decide (v ≤ RegistryRecord.version r0)); cbn; [exact Hk|].
    intros id r. destruct (decide (id' = id)) as [->|Hne].
    + rewrite lookup_insert_eq. intros [= <-]. cbn. by apply Hk.
    + rewrite lookup_insert_ne by done. apply Hk.
Qed.

(** X3. When every stored record carries the id it is stored under, this
    is still so after any succession of registry calls. *)
Theorem registry_calls_keep_keys (l : list api_call) (st : state) :
  well_keyed (projects st) → well_keyed (projects (api_perform_all l st)).
Proof.
  revert st. induction l as [|c l IH]; intros st Hk; [exact Hk|].
  cbn [api_perform_all]. apply IH, api_perform_well_keyed, Hk.
Qed.

(** X4. With the database file missing or unreadable a new client starts
    empty: it answers 404 to a status request and to a sync for any id,
    and the first registration is answered 201 and replaces the file by a
    database that holds this one record only. *)
Theorem client_without_database (st : state) (id name hash descr : string)
    (version : Z) (manifest : list string) :
  db_file st = None ∨ db_file st = Some DbUnreadable →
  let st0 := (GudoaiApiClient.__init__ st).2 in
  projects st0 = ∅
  ∧ (GudoaiApiClient.get_project_status id st0).1
    = Return (404, PError "Project not found")
  ∧ (GudoaiApiClient.sync_project id hash version descr manifest st0).1
    = Return (404, PError "Project not found")
  ∧ (let out :=
       GudoaiApiClient.register_project id name hash version descr st0 in
     out.1 = Return (201, PRegistered id)
     ∧ db_file out.2
       = Some (DbJson {[ id := GudoaiApiClient.new_record id name hash
                                 version descr ]})).
Proof.
  intros Hdb st0. subst st0. unfold_api. unfold_monad.
  destruct Hdb as [-> | ->]; cbn; rewrite lookup_empty; cbn.
  all: repeat split; reflexivity.
Qed.

(** X5. An accepted sync cannot be repeated: the same call made again is
    answered 400 and leaves the dictionary and the database file as the
    first call left them. *)
Theorem sync_project_not_repeatable (st : state) (id hash descr : string)
    (version : Z) (manifest : list string) :
  let first := GudoaiApiClient.sync_project id hash version descr manifest st in
  first.1 = Return (200, PSynced hash) →
  let again :=
    GudoaiApiClient.sync_project id hash version descr manifest first.2 in
  again.1 = Return (400, PError
              "Stale data: metadata_version must be greater than current.")
  ∧ projects again.2 = projects first.2
  ∧ db_file again.2 = db_file first.2.
Proof.
  intros first. subst first. unfold_api. unfold_monad.
  destruct (projects st !! id) as [r|] eqn:Hid; cbn.
  - destruct (decide (version ≤ RegistryRecord.version r)); cbn;
      [discriminate|].
    intros _. rewrite lookup_insert_eq. cbn.
    destruct (decide (version ≤ version)); [cbn; done|lia].
  - discriminate.
Qed.

End RegistryInvariants.

(** ** More on the orchestrator *)

Ltac unfold_rest :=
  unfold GudoaiCoreRest.init_project, GudoaiCoreRest.check_api_status,
    GudoaiCoreRest.lift, GudoaiCoreRest.makedirs, GudoaiCoreRest.exists_,
    GudoaiCoreRest._create_gudoai_meta, GudoaiCoreRest._init_git_repo,
    GudoaiCoreRest._git_initial_commit in *.

Ltac unfold_everything := unfold_rest; unfold_all.

(** Settle a membership in a short explicit list. *)
Ltac in_list H :=
  rewrite ?elem_of_cons, ?elem_of_nil in H;
  repeat match type of H with
         | _ ∨ _ => destruct H as [H|H]
         end;
  try discriminate; try contradiction.

Module OrchestratorFacts.

(** X6. [sync_project] on a project whose metadata says it is not
    registered raises and leaves the whole state, history included, as it
    was: no command is run and the registry is not called. *)
Theorem sync_project_requires_registration (st : state) (name : string)
    (m : ProjectMetadata.t) :
  meta_files st !! GudoaiCore.meta_path name = Some (Json m) →
  ProjectMetadata.api_registered m = false →
  GudoaiCore.sync_project name st
  = (Raise (ValueError "Project not registered with the API."), st).
Proof.
  intros Hm Hreg. unfold_all. rewrite Hm, Hreg. reflexivity.
Qed.

(** X7. When the metadata file is missing or is not valid JSON,
    [register_project], [sync_project] and [check_api_status] raise
    [ValueError] and [update_metadata] raises [FileNotFoundError] for the
    missing file and [ValueError] for the invalid one; each leaves the
    whole state as it was. *)
Theorem unreadable_metadata_errors (st : state) (name descr : string) :
  let path := GudoaiCore.meta_path name in
  meta_files st !! path = None ∨ meta_files st !! path = Some NotJson →
  (∃ msg, GudoaiCore.register_project name st = (Raise (ValueError msg), st))
  ∧ (∃ msg, GudoaiCore.sync_project name st = (Raise (ValueError msg), st))
  ∧ (∃ msg, GudoaiCoreRest.check_api_status name st
            = (GudoaiCoreRest.Err (GudoaiCoreRest.Thrown (ValueError msg)),
               st))
  ∧ (meta_files st !! path = None →
     GudoaiCore.update_metadata name descr st
     = (Raise (FileNotFoundError path), st))
  ∧ (meta_files st !! path = Some NotJson →
     GudoaiCore.update_metadata name descr st
     = (Raise (ValueError ("File " +:+ path +:+ " is not valid JSON.")), st)).
Proof.
  intros path Hbad. subst path. unfold_everything.
  destruct Hbad as [Hbad|Hbad]; rewrite Hbad; cbn.
  all: repeat split; try (eexists; reflexivity); try discriminate; done.
Qed.

(** X8. When [git rev-parse HEAD] exits with a non-zero code,
    [register_project] and [sync_project] raise [RuntimeError] with the
    tool's error text, and all they have done is to run that one command;
    the same holds for [sync_project] when [git ls-files] fails after a
    successful [rev-parse].  The registry is not called and nothing is
    written. *)
Theorem unresolved_commit_stops_before_registry (st : state) (name : string)
    (m : ProjectMetadata.t) :
  meta_files st !! GudoaiCore.meta_path name = Some (Json m) →
  let head := git st (trace st) name ["git"; "rev-parse"; "HEAD"] in
  let st1 := log (EvRun name ["git"; "rev-parse"; "HEAD"] head) st in
  let ls := git st (trace st1) name ["git"; "ls-files"] in
  (returncode head ≠ 0 → ProjectMetadata.api_registered m = false →
     GudoaiCore.register_project name st
     = (Raise (RuntimeError ("Failed to get commit hash: " +:+ stderr head)),
        st1))
  ∧ (returncode head ≠ 0 → ProjectMetadata.api_registered m = true →
     GudoaiCore.sync_project name st
     = (Raise (RuntimeError ("Failed to get commit hash: " +:+ stderr head)),
        st1))
  ∧ (returncode head = 0 → returncode ls ≠ 0 →
     ProjectMetadata.api_registered m = true →
     GudoaiCore.sync_project name st
     = (Raise (RuntimeError ("Failed to get tracked files: " +:+ stderr ls)),
        log (EvRun name ["git"; "ls-files"] ls) st1)).
Proof.
  intros Hm head st1 ls. subst ls st1 head. unfold_all. rewrite Hm.
  reduce_state.
  repeat split; intros; split_run; done.
Qed.

(** X9. [update_metadata] writes the metadata file before it stages it:
    when [git add] exits with a non-zero code the call raises
    [CalledProcessError], [git commit] is not run, and the file on disk
    already holds the new description and the raised version. *)
Theorem update_metadata_without_commit (st : state) (name descr : string)
    (m : ProjectMetadata.t) :
  meta_files st !! GudoaiCore.meta_path name = Some (Json m) →
  let written := GudoaiCore.with_description_bumped m descr in
  let st1 := (dump_meta (GudoaiCore.meta_path name) written st).2 in
  let add := git st (trace st1) name GudoaiCore.git_add in
  returncode add ≠ 0 →
  let out := GudoaiCore.update_metadata name descr st in
  out.1 = Raise (CalledProcessError GudoaiCore.git_add (returncode add))
  ∧ commands (new_events st out.2) = [GudoaiCore.git_add]
  ∧ meta_files out.2 !! GudoaiCore.meta_path name = Some (Json written).
Proof.
  intros Hm written st1 add Hrc out. subst out add st1 written.
  unfold_all. rewrite Hm. reduce_state.
  split_run; events; rewrite lookup_insert_eq; done.
Qed.

(** The state an accepted sync leaves behind. *)
Lemma sync_accepted_state (st : state) (name : string) :
  let st1 := (GudoaiCore.sync_project name st).2 in
  200 ∈ api_statuses (new_events st st1) →
  ∃ m r h manifest,
    meta_files st !! GudoaiCore.meta_path name = Some (Json m)
    ∧ ProjectMetadata.api_registered m = true
    ∧ projects st !! ProjectMetadata.project_id m = Some r
    ∧ meta_files st1
      = <[GudoaiCore.meta_path name := Json (GudoaiCore.synced_at m h)]>
          (meta_files st)
    ∧ projects st1
      = <[ProjectMetadata.project_id m :=
            GudoaiApiClient.update_record r h (ProjectMetadata.version m)
              (ProjectMetadata.description m) manifest]> (projects st)
    ∧ db_file st1 = Some (DbJson (projects st1))
    ∧ git st1 = git st.
Proof.
  intros st1. subst st1. unfold_all.
  split_run; events; intros Hin; in_list Hin.
  all: eexists _, _, _, _; repeat split; eauto.
Qed.

(** The state an accepted registration leaves behind. *)
Lemma register_accepted_state (st : state) (name : string) :
  let st1 := (GudoaiCore.register_project name st).2 in
  201 ∈ api_statuses (new_events st st1) →
  ∃ m h,
    meta_files st !! GudoaiCore.meta_path name = Some (Json m)
    ∧ ProjectMetadata.api_registered m = false
    ∧ projects st !! ProjectMetadata.project_id m = None
    ∧ meta_files st1
      = <[GudoaiCore.meta_path name := Json (GudoaiCore.registered_at m h)]>
          (meta_files st)
    ∧ projects st1
      = <[ProjectMetadata.project_id m :=
            GudoaiApiClient.new_record (ProjectMetadata.project_id m) name h
              (ProjectMetadata.version m) (ProjectMetadata.description m)]>
          (projects st)
    ∧ db_file st1 = Some (DbJson (projects st1))
    ∧ git st1 = git st.
Proof.
  intros st1. subst st1. unfold_all.
  split_run; events; intros Hin; in_list Hin.
  all: eexists _, _; repeat split; eauto.
Qed.

(** What [update_metadata] leaves behind, whatever the tool answers. *)
Lemma update_metadata_state (st : state) (name descr : string)
    (m : ProjectMetadata.t) :
  meta_files st !! GudoaiCore.meta_path name = Some (Json m) →
  let st1 := (GudoaiCore.update_metadata name descr st).2 in
  meta_files st1
    = <[GudoaiCore.meta_path name :=
          Json (GudoaiCore.with_description_bumped m descr)]> (meta_files st)
  ∧ projects st1 = projects st
  ∧ db_file st1 = db_file st
  ∧ git st1 = git st.
Proof.
  intros Hm st1. subst st1. unfold_all. rewrite Hm. reduce_state.
  split_run; done.
Qed.

(** Identify the two results of one dictionary lookup. *)
Ltac same_lookup :=
  repeat match goal with
         | H1 : ?x = None, H2 : ?x = Some _ |- _ => congruence
         | H : None = Some _ |- _ => discriminate
         | H : Some _ = None |- _ => discriminate
         | H : Some ?a = Some ?b |- _ =>
             assert (a = b) by congruence; clear H;
             first [subst a | subst b]
         | H1 : ?x = Some ?a, H2 : ?x = Some ?b |- _ =>
             assert (a = b) by congruence;
             first [subst a | subst b]; clear H2
         end.

(** Close the paths on which a command that always succeeds failed. *)
Ltac always_succeeds :=
  try solve [ exfalso;
              match goal with
              | Hn : returncode ?p ≠ 0, Hp : ?p = git _ _ _ _ |- _ =>
                  apply Hn; rewrite Hp; solve [auto]
              end ].

(** A sync that does not send a version above the stored one, or names
    an id the registry does not know, changes nothing. *)
Lemma sync_project_turned_down (st : state) (name : string)
    (m : ProjectMetadata.t) :
  meta_files st !! GudoaiCore.meta_path name = Some (Json m) →
  ProjectMetadata.api_registered m = true →
  (∀ tr, returncode (git st tr name ["git"; "rev-parse"; "HEAD"]) = 0) →
  (∀ tr, returncode (git st tr name ["git"; "ls-files"]) = 0) →
  let st1 := (GudoaiCore.sync_project name st).2 in
  (projects st !! ProjectMetadata.project_id m = None →
     api_statuses (new_events st st1) = [404])
  ∧ (∀ r, projects st !! ProjectMetadata.project_id m = Some r →
          ProjectMetadata.version m ≤ RegistryRecord.version r →
          api_statuses (new_events st st1) = [400])
  ∧ (200 ∉ api_statuses (new_events st st1) →
     meta_files st1 = meta_files st ∧ projects st1 = projects st
     ∧ db_file st1 = db_file st).
Proof.
  intros Hm Hreg Hhead Hls st1. subst st1.
  unfold_all. rewrite Hm, Hreg. reduce_state.
  split; [|split].
  - intros Hid. split_run; always_succeeds; same_lookup. by events.
  - intros r Hid Hle. split_run; always_succeeds; same_lookup; try lia.
    by events.
  - split_run; always_succeeds; events; intros Hno; try done.
    all: exfalso; apply Hno; apply list_elem_of_here.
Qed.

(** X10. After a sync that the registry accepted, [sync_project] called
    again at once is answered 400 and changes neither the metadata files
    nor the registry, because the version sent is the one just stored;
    once [update_metadata] has run, the next [sync_project] is accepted
    again. *)
Theorem second_sync_is_stale (st : state) (name descr : string) :
  let st1 := (GudoaiCore.sync_project name st).2 in
  200 ∈ api_statuses (new_events st st1) →
  (∀ tr, returncode (git st tr name ["git"; "rev-parse"; "HEAD"]) = 0) →
  (∀ tr, returncode (git st tr name ["git"; "ls-files"]) = 0) →
  (let st2 := (GudoaiCore.sync_project name st1).2 in
   api_statuses (new_events st1 st2) = [400]
   ∧ meta_files st2 = meta_files st1
   ∧ projects st2 = projects st1)
  ∧ (let st2 := (GudoaiCore.update_metadata name descr st1).2 in
     api_statuses (new_events st2 (GudoaiCore.sync_project name st2).2)
     = [200]).
Proof.
  intros st1 Haccepted Hhead Hls.
  destruct (sync_accepted_state st name Haccepted)
    as (m & r & h & manifest & Hm & Hreg & Hr & Hfiles & Hprojects & Hdb
        & Hgit).
  fold st1 in Hfiles, Hprojects, Hdb, Hgit.
  assert (Hm1 : meta_files st1 !! GudoaiCore.meta_path name
                = Some (Json (GudoaiCore.synced_at m h))).
  { rewrite Hfiles. apply lookup_insert_eq. }
  split.
  - destruct (sync_project_turned_down st1 name (GudoaiCore.synced_at m h)
                Hm1 Hreg) as (_ & Hstale & Hsame).
    { intros tr. rewrite Hgit. apply Hhead. }
    { intros tr. rewrite Hgit. apply Hls. }
    assert (H400 : api_statuses
                     (new_events st1 (GudoaiCore.sync_project name st1).2)
                   = [400]).
    { eapply Hstale; [rewrite Hprojects; apply lookup_insert_eq|].
      cbn. lia. }
    split; [exact H400|].
    destruct Hsame as (Hf & Hp & _); [|by split].
    rewrite H400. intros Hin. in_list Hin.
  - intros st2.
    destruct (update_metadata_state st1 name descr _ Hm1)
      as (Hfiles2 & Hprojects2 & _ & Hgit2).
    fold st2 in Hfiles2, Hprojects2, Hgit2.
    eapply (CoreFacts.sync_project_accepted st2 name
              (GudoaiCore.with_description_bumped
                 (GudoaiCore.synced_at m h) descr)).
    + rewrite Hfiles2. apply lookup_insert_eq.
    + exact Hreg.
    + rewrite Hprojects2, Hprojects. apply lookup_insert_eq.
    + cbn. lia.
    + intros tr. rewrite Hgit2, Hgit. apply Hhead.
    + intros tr. rewrite Hgit2, Hgit. apply Hls.
Qed.

(** X11. A project that is registered locally while the database file of
    the registry is missing or unreadable is stranded: in a new process
    [sync_project] is answered 404 and changes nothing, and
    [register_project] raises because the metadata says the project is
    registered already. *)
Theorem lost_registry_strands_project (st : state) (name : string)
    (m : ProjectMetadata.t) :
  meta_files st !! GudoaiCore.meta_path name = Some (Json m) →
  ProjectMetadata.api_registered m = true →
  db_file st = None ∨ db_file st = Some DbUnreadable →
  (∀ tr, returncode (git st tr name ["git"; "rev-parse"; "HEAD"]) = 0) →
  (∀ tr, returncode (git st tr name ["git"; "ls-files"]) = 0) →
  let st0 := (GudoaiCore.__init__ st).2 in
  (let st1 := (GudoaiCore.sync_project name st0).2 in
   api_statuses (new_events st0 st1) = [404]
   ∧ meta_files st1 = meta_files st
   ∧ projects st1 = ∅)
  ∧ GudoaiCore.register_project name st0
    = (Raise (ValueError "Project already registered with the API."), st0).
Proof.
  intros Hm Hreg Hdb Hhead Hls st0.
  assert (Hst0 : meta_files st0 = meta_files st ∧ projects st0 = ∅
                 ∧ git st0 = git st).
  { subst st0. unfold_all. by destruct Hdb as [-> | ->]. }
  destruct Hst0 as (Hfiles0 & Hprojects0 & Hgit0).
  assert (Hm0 : meta_files st0 !! GudoaiCore.meta_path name = Some (Json m)).
  { by rewrite Hfiles0. }
  split.
  - destruct (sync_project_turned_down st0 name m Hm0 Hreg)
      as (Hunknown & _ & Hsame).
    { intros tr. rewrite Hgit0. apply Hhead. }
    { intros tr. rewrite Hgit0. apply Hls. }
    assert (H404 : api_statuses
                     (new_events st0 (GudoaiCore.sync_project name st0).2)
                   = [404]).
    { apply Hunknown. rewrite Hprojects0. apply lookup_empty. }
    split; [exact H404|].
    destruct Hsame as (Hf & Hp & _).
    { rewrite H404. intros Hin. in_list Hin. }
    split; congruence.
  - unfold_all. fold st0. rewrite Hm0, Hreg. reflexivity.
Qed.

(** X12. When the registry accepts a sync, the metadata file and the
    stored record agree afterwards: the record's commit hash is the
    file's [last_api_sync_commit_hash] and its own [last_synced_commit],
    its version and description are those of the file, and the database
    file holds the dictionary. *)
Theorem accepted_sync_aligns_local_and_remote (st : state) (name : string) :
  let st1 := (GudoaiCore.sync_project name st).2 in
  200 ∈ api_statuses (new_events st st1) →
  ∃ m' r',
    meta_files st1 !! GudoaiCore.meta_path name = Some (Json m')
    ∧ projects st1 !! ProjectMetadata.project_id m' = Some r'
    ∧ ProjectMetadata.last_api_sync_commit_hash m'
      = Some (RegistryRecord.commit_hash r')
    ∧ RegistryRecord.last_synced_commit r'
      = Some (RegistryRecord.commit_hash r')
    ∧ RegistryRecord.version r' = ProjectMetadata.version m'
    ∧ RegistryRecord.description r' = ProjectMetadata.description m'
    ∧ persisted st1.
Proof.
  intros st1 Haccepted.
  destruct (sync_accepted_state st name Haccepted)
    as (m & r & h & manifest & Hm & Hreg & Hr & Hfiles & Hprojects & Hdb
        & Hgit).
  fold st1 in Hfiles, Hprojects, Hdb, Hgit.
  eexists _, _. split; [rewrite Hfiles; apply lookup_insert_eq|].
  split; [rewrite Hprojects; apply lookup_insert_eq|].
  repeat split; try reflexivity.
  unfold persisted. unfold_api. unfold_monad. by rewrite Hdb.
Qed.

(** What [check_api_status] prints for a project the registry knows. *)
Lemma status_of_known_project (st : state) (name : string)
    (m : ProjectMetadata.t) (r : RegistryRecord.t) :
  meta_files st !! GudoaiCore.meta_path name = Some (Json m) →
  projects st !! ProjectMetadata.project_id m = Some r →
  let out := GudoaiCoreRest.check_api_status name st in
  out.2 = log (EvApiStatus (ProjectMetadata.project_id m) 200) st
  ∧ ∃ lines,
      out.1 = GudoaiCoreRest.Ok lines
      ∧ length lines = 8%nat
      ∧ (last lines = Some GudoaiCoreRest.hashes_equal_line
         ↔ ProjectMetadata.last_api_sync_commit_hash m
           = RegistryRecord.last_synced_commit r)
      ∧ (last lines = Some GudoaiCoreRest.hashes_differ_line
         ↔ ProjectMetadata.last_api_sync_commit_hash m
           ≠ RegistryRecord.last_synced_commit r).
Proof.
  intros Hm Hr out. subst out. unfold_everything. rewrite Hm.
  reduce_state. rewrite Hr. reduce_state.
  destruct (decide (200 = 200)); [|done]. cbn [fst snd].
  split; [reflexivity|]. eexists. split; [reflexivity|].
  split; [reflexivity|].
  unfold GudoaiCoreRest.status_lines. cbn [last].
  destruct (decide _) as [Heq|Hne]; split; split;
    first [done | intros [= ?]; done | intros ?; done].
Qed.

(** X13. For a project the registry knows, [check_api_status] prints
    eight lines, the last of which says that the hashes agree exactly when
    the file's [last_api_sync_commit_hash] equals the record's
    [last_synced_commit], and that they differ otherwise; for a project
    the registry does not know it prints the one line that reports the
    registry's error.  In both cases it only adds the status request to
    the history. *)
Theorem check_api_status_verdict (st : state) (name : string)
    (m : ProjectMetadata.t) :
  meta_files st !! GudoaiCore.meta_path name = Some (Json m) →
  let id := ProjectMetadata.project_id m in
  let out := GudoaiCoreRest.check_api_status name st in
  (∀ r, projects st !! id = Some r →
     out.2 = log (EvApiStatus id 200) st
     ∧ ∃ lines,
         out.1 = GudoaiCoreRest.Ok lines
         ∧ length lines = 8%nat
         ∧ (last lines = Some GudoaiCoreRest.hashes_equal_line
            ↔ ProjectMetadata.last_api_sync_commit_hash m
              = RegistryRecord.last_synced_commit r)
         ∧ (last lines = Some GudoaiCoreRest.hashes_differ_line
            ↔ ProjectMetadata.last_api_sync_commit_hash m
              ≠ RegistryRecord.last_synced_commit r))
  ∧ (projects st !! id = None →
     out = (GudoaiCoreRest.Ok
              ["❌ Failed to get project status: Project not found"],
            log (EvApiStatus id 404) st)).
Proof.
  intros Hm id out. subst out id. split.
  - intros r Hr. exact (status_of_known_project st name m r Hm Hr).
  - intros Hr. unfold_everything. rewrite Hm. reduce_state.
    rewrite Hr. reduce_state.
    destruct (decide (404 = 200)); [done|]. reflexivity.
Qed.

(** X14. Right after a registration that the registry accepted,
    [check_api_status] reports that the hashes differ, since the record
    has no synced commit yet while the file already names one; right
    after an accepted sync it reports that they agree. *)
Theorem status_after_register_and_sync (st : state) (name : string) :
  (let st1 := (GudoaiCore.register_project name st).2 in
   201 ∈ api_statuses (new_events st st1) →
   ∃ lines,
     (GudoaiCoreRest.check_api_status name st1).1 = GudoaiCoreRest.Ok lines
     ∧ last lines = Some GudoaiCoreRest.hashes_differ_line)
  ∧ (let st1 := (GudoaiCore.sync_project name st).2 in
     200 ∈ api_statuses (new_events st st1) →
     ∃ lines,
       (GudoaiCoreRest.check_api_status name st1).1 = GudoaiCoreRest.Ok lines
       ∧ last lines = Some GudoaiCoreRest.hashes_equal_line).
Proof.
  split; intros st1 Haccepted.
  - destruct (register_accepted_state st name Haccepted)
      as (m & h & Hm & Hreg & Hid & Hfiles & Hprojects & _).
    fold st1 in Hfiles, Hprojects.
    assert (Hm1 : meta_files st1 !! GudoaiCore.meta_path name
                  = Some (Json (GudoaiCore.registered_at m h))).
    { rewrite Hfiles. apply lookup_insert_eq. }
    destruct (status_of_known_project st1 name _
                (GudoaiApiClient.new_record (ProjectMetadata.project_id m)
                   name h (ProjectMetadata.version m)
                   (ProjectMetadata.description m)) Hm1)
      as (_ & lines & Hlines & _ & _ & Hdiffer).
    { rewrite Hprojects. apply lookup_insert_eq. }
    exists lines. split; [exact Hlines|]. apply Hdiffer. discriminate.
  - destruct (sync_accepted_state st name Haccepted)
      as (m & r & h & manifest & Hm & Hreg & Hr & Hfiles & Hprojects & _).
    fold st1 in Hfiles, Hprojects.
    assert (Hm1 : meta_files st1 !! GudoaiCore.meta_path name
                  = Some (Json (GudoaiCore.synced_at m h))).
    { rewrite Hfiles. apply lookup_insert_eq. }
    destruct (status_of_known_project st1 name _
                (GudoaiApiClient.update_record r h
                   (ProjectMetadata.version m)
                   (ProjectMetadata.description m) manifest) Hm1)
      as (_ & lines & Hlines & _ & Hequal & _).
    { rewrite Hprojects. apply lookup_insert_eq. }
    exists lines. split; [exact Hlines|]. apply Hequal. reflexivity.
Qed.


(** X16. [create_feature_branch] runs the single command
    [git checkout -b feature/<name>], returns when it exits with zero and
    raises [RuntimeError] naming the branch and carrying the tool's error
    text otherwise; [merge_to_main] with the same name runs
    [git checkout master] and, when that succeeds, merges exactly that
    branch. *)
Theorem feature_branch_commands (st : state) (name branch : string) :
  let created := "feature/" +:+ branch in
  let checkout := git st (trace st) name ["git"; "checkout"; "-b"; created] in
  let out := GudoaiCore.create_feature_branch name branch st in
  commands (new_events st out.2) = [["git"; "checkout"; "-b"; created]]
  ∧ (returncode checkout = 0 → out.1 = Return tt)
  ∧ (returncode checkout ≠ 0 →
     out.1 = Raise (RuntimeError ("Failed to create branch '" +:+ created
                                  +:+ "': " +:+ stderr checkout)))
  ∧ (let merged :=
       commands (new_events st (GudoaiCore.merge_to_main name branch st).2) in
     merged = [["git"; "checkout"; "master"]]
     ∨ merged = [["git"; "checkout"; "master"]; ["git"; "merge"; created]]).
Proof.
  intros created checkout out. subst out checkout created.
  unfold_all. repeat split; try intros Hrc; split_run; events; auto.
Qed.

(** X17. [init_project] refuses a path that exists with [FileExistsError]
    and the empty project name with [FileNotFoundError]; in both cases
    the whole state is left as it was: no file is written and no command
    is run. *)
Theorem init_project_refusals (env : GudoaiCoreRest.environment)
    (st : state) (name : string) :
  (GudoaiCoreRest.exists_ env name = true →
     GudoaiCoreRest.init_project env name st
     = (GudoaiCoreRest.Err
          (GudoaiCoreRest.FileExistsError
             ("Project '" +:+ name +:+ "' already exists.")), st))
  ∧ GudoaiCoreRest.init_project env "" st
    = (GudoaiCoreRest.Err (GudoaiCoreRest.Thrown (FileNotFoundError "")), st).
Proof.
  split.
  - intros Hex. unfold GudoaiCoreRest.init_project. by rewrite Hex.
  - reflexivity.
Qed.

(** X18. [init_project] writes the metadata file before it initialises
    the repository: when [git init] exits with a non-zero code the call
    raises [RuntimeError] with the tool's error text, nothing is staged
    or committed, and the metadata file is left on disk with version 0,
    unregistered. *)
Theorem init_project_git_failure (env : GudoaiCoreRest.environment)
    (st : state) (name : string) :
  name ≠ "" →
  GudoaiCoreRest.exists_ env name = false →
  let meta := GudoaiCoreRest.initial_meta (GudoaiCoreRest.uuid4 env) in
  let st1 := (dump_meta (GudoaiCore.meta_path name) meta st).2 in
  let init := git st (trace st1) name ["git"; "init"] in
  returncode init ≠ 0 →
  let out := GudoaiCoreRest.init_project env name st in
  out.1 = GudoaiCoreRest.Err
            (GudoaiCoreRest.Thrown
               (RuntimeError ("Git init failed: " +:+ stderr init)))
  ∧ commands (new_events st out.2) = [["git"; "init"]]
  ∧ meta_files out.2 !! GudoaiCore.meta_path name = Some (Json meta)
  ∧ ProjectMetadata.version meta = 0
  ∧ ProjectMetadata.api_registered meta = false.
Proof.
  intros Hname Hex meta st1 init Hrc out. subst out init st1 meta.
  unfold GudoaiCoreRest.init_project. rewrite Hex.
  unfold_everything. destruct (decide (name = "")); [done|]. reduce_state.
  split_run; events; rewrite lookup_insert_eq; done.
Qed.

(** What a successful [init_project] leaves behind. *)
Lemma init_project_state (env : GudoaiCoreRest.environment) (st : state)
    (name : string) :
  name ≠ "" →
  GudoaiCoreRest.exists_ env name = false →
  (∀ tr args, returncode (git st tr name args) = 0) →
  let out := GudoaiCoreRest.init_project env name st in
  out.1 = GudoaiCoreRest.Ok tt
  ∧ meta_files out.2
    = <[GudoaiCore.meta_path name :=
          Json (GudoaiCoreRest.initial_meta (GudoaiCoreRest.uuid4 env))]>
        (meta_files st)
  ∧ projects out.2 = projects st
  ∧ db_file out.2 = db_file st
  ∧ git out.2 = git st
  ∧ commands (new_events st out.2)
    = [["git"; "init"]; GudoaiCore.git_add;
       GudoaiCore.git_commit "GUDOAI: Initial project setup"].
Proof.
  intros Hname Hex Hgit out. subst out.
  unfold GudoaiCoreRest.init_project. rewrite Hex.
  unfold_everything. destruct (decide (name = "")); [done|]. reduce_state.
  split_run; always_succeeds.
  all: try (exfalso;
            match goal with
            | Hn : returncode ?p ≠ 0, Hp : ?p = git _ _ _ _ |- _ =>
                apply Hn; rewrite Hp; apply Hgit
            | Hn : ¬ returncode ?p = 0, Hp : ?p = git _ _ _ _ |- _ =>
                apply Hn; rewrite Hp; apply Hgit
            end).
  events. done.
Qed.

(** X19. For a non-empty project name whose path does not exist, and a
    tool that succeeds, [init_project] returns after writing a metadata
    file that carries the drawn identifier, version 0, the default
    description, no sync hash and [api_registered] false, and after
    running [git init], [git add] and [git commit] in this order; the
    registry and its database file are not touched. *)
Theorem init_project_success (env : GudoaiCoreRest.environment) (st : state)
    (name : string) :
  name ≠ "" →
  GudoaiCoreRest.exists_ env name = false →
  (∀ tr args, returncode (git st tr name args) = 0) →
  let out := GudoaiCoreRest.init_project env name st in
  out.1 = GudoaiCoreRest.Ok tt
  ∧ (∃ m,
       meta_files out.2 !! GudoaiCore.meta_path name = Some (Json m)
       ∧ ProjectMetadata.project_id m = GudoaiCoreRest.uuid4 env
       ∧ ProjectMetadata.version m = 0
       ∧ ProjectMetadata.description m = "New GUDOAI managed project."
       ∧ ProjectMetadata.last_api_sync_commit_hash m = None
       ∧ ProjectMetadata.api_registered m = false)
  ∧ commands (new_events st out.2)
    = [["git"; "init"]; ["git"; "add"; "gudoai_meta.json"];
       ["git"; "commit"; "-m"; "GUDOAI: Initial project setup"]]
  ∧ projects out.2 = projects st
  ∧ db_file out.2 = db_file st.
Proof.
  intros Hname Hex Hgit out.
  destruct (init_project_state env st name Hname Hex Hgit)
    as (Hok & Hfiles & Hprojects & Hdb & _ & Hcommands).
  fold out in Hok, Hfiles, Hprojects, Hdb, Hcommands.
  split; [exact Hok|]. split.
  - eexists. rewrite Hfiles, lookup_insert_eq. split; [reflexivity|].
    cbn. done.
  - split; [exact Hcommands|]. split; [exact Hprojects|exact Hdb].
Qed.

(** An accepted registration is answered 201, once. *)
Lemma register_project_answered (st : state) (name : string)
    (m : ProjectMetadata.t) :
  meta_files st !! GudoaiCore.meta_path name = Some (Json m) →
  ProjectMetadata.api_registered m = false →
  projects st !! ProjectMetadata.project_id m = None →
  (∀ tr, returncode (git st tr name ["git"; "rev-parse"; "HEAD"]) = 0) →
  api_statuses (new_events st (GudoaiCore.register_project name st).2)
  = [201].
Proof.
  intros Hm Hreg Hid Hhead. unfold_all. rewrite Hm, Hreg. reduce_state.
  split_run; always_succeeds; same_lookup; by events.
Qed.

(** X20. The whole life of a project: with a tool that always succeeds
    and an identifier the registry does not hold yet, [init_project],
    [update_metadata], [register_project] and [sync_project] in this
    order all go through; the registry answers 201 to the registration
    and 200 to the sync, and at the end the metadata file is registered
    with version 2 and the given description, the stored record has
    version 2, the same description and the project's name, and
    [check_api_status] reports that the hashes agree. *)
Theorem project_lifecycle (env : GudoaiCoreRest.environment) (st : state)
    (name descr : string) :
  name ≠ "" →
  GudoaiCoreRest.exists_ env name = false →
  (∀ tr args, returncode (git st tr name args) = 0) →
  projects st !! GudoaiCoreRest.uuid4 env = None →
  let st1 := (GudoaiCoreRest.init_project env name st).2 in
  let st2 := (GudoaiCore.update_metadata name descr st1).2 in
  let st3 := (GudoaiCore.register_project name st2).2 in
  let st4 := (GudoaiCore.sync_project name st3).2 in
  api_statuses (new_events st2 st3) = [201]
  ∧ api_statuses (new_events st3 st4) = [200]
  ∧ (∃ m r,
       meta_files st4 !! GudoaiCore.meta_path name = Some (Json m)
       ∧ projects st4 !! GudoaiCoreRest.uuid4 env = Some r
       ∧ ProjectMetadata.project_id m = GudoaiCoreRest.uuid4 env
       ∧ ProjectMetadata.api_registered m = true
       ∧ ProjectMetadata.version m = 2
       ∧ ProjectMetadata.description m = descr
       ∧ RegistryRecord.version r = 2
       ∧ RegistryRecord.description r = descr
       ∧ RegistryRecord.project_name r = name)
  ∧ ∃ lines,
      (GudoaiCoreRest.check_api_status name st4).1 = GudoaiCoreRest.Ok lines
      ∧ last lines = Some GudoaiCoreRest.hashes_equal_line.
Proof.
  intros Hname Hex Hgit Hfree st1 st2 st3 st4.
  set (path := GudoaiCore.meta_path name).
  set (id := GudoaiCoreRest.uuid4 env) in *.
  (* init_project *)
  destruct (init_project_state env st name Hname Hex Hgit)
    as (_ & Hfiles1 & Hprojects1 & _ & Hgit1 & _).
  fold st1 path id in Hfiles1, Hprojects1, Hgit1.
  set (m1 := GudoaiCoreRest.initial_meta id) in *.
  assert (Hm1 : meta_files st1 !! path = Some (Json m1)).
  { rewrite Hfiles1. apply lookup_insert_eq. }
  (* update_metadata *)
  destruct (update_metadata_state st1 name descr m1 Hm1)
    as (Hfiles2 & Hprojects2 & _ & Hgit2).
  fold st2 path in Hfiles2, Hprojects2, Hgit2.
  set (m2 := GudoaiCore.with_description_bumped m1 descr) in *.
  assert (Hm2 : meta_files st2 !! path = Some (Json m2)).
  { rewrite Hfiles2. apply lookup_insert_eq. }
  assert (Hid2 : projects st2 !! ProjectMetadata.project_id m2 = None).
  { rewrite Hprojects2, Hprojects1. exact Hfree. }
  assert (Hgit2' : ∀ tr args, returncode (git st2 tr name args) = 0).
  { intros tr args. rewrite Hgit2, Hgit1. apply Hgit. }
  (* register_project *)
  pose proof (register_project_answered st2 name m2 Hm2 eq_refl Hid2
                (λ tr, Hgit2' tr _)) as H201.
  fold st3 in H201.
  destruct (CoreFacts.register_project_accepted st2 name m2 Hm2 eq_refl Hid2
              (Hgit2' _ _))
    as (Hfiles3 & Hprojects3 & _ & Hgit3).
  fold st3 path in Hfiles3, Hprojects3, Hgit3.
  set (h3 := Py.strip _) in Hfiles3, Hprojects3.
  set (m3 := GudoaiCore.registered_at m2 h3) in *.
  assert (Hm3 : meta_files st3 !! path = Some (Json m3)).
  { rewrite Hfiles3. apply lookup_insert_eq. }
  assert (Hgit3' : ∀ tr args, returncode (git st3 tr name args) = 0).
  { intros tr args. rewrite Hgit3. apply Hgit2'. }
  (* sync_project *)
  destruct (CoreFacts.sync_project_accepted st3 name m3
              (GudoaiApiClient.new_record id name h3
                 (ProjectMetadata.version m2)
                 (ProjectMetadata.description m2)) Hm3 eq_refl)
    as (H200 & _).
  { rewrite Hprojects3. apply lookup_insert_eq. }
  { cbn. lia. }
  { intros tr. apply Hgit3'. }
  { intros tr. apply Hgit3'. }
  fold st4 in H200.
  assert (Haccepted : 200 ∈ api_statuses (new_events st3 st4)).
  { rewrite H200. apply list_elem_of_here. }
  destruct (sync_accepted_state st3 name Haccepted)
    as (m & r & h & manifest & Hm & _ & Hr & Hfiles4 & Hprojects4 & _).
  fold st4 path in Hm, Hfiles4, Hprojects4.
  rewrite Hm3 in Hm. injection Hm as <-.
  rewrite Hprojects3 in Hr. cbn in Hr. rewrite lookup_insert_eq in Hr.
  injection Hr as <-.
  assert (Hm4 : meta_files st4 !! path
                = Some (Json (GudoaiCore.synced_at m3 h))).
  { rewrite Hfiles4. apply lookup_insert_eq. }
  split; [exact H201|]. split; [exact H200|]. split.
  - eexists _, _. split; [exact Hm4|].
    split; [rewrite Hprojects4; apply lookup_insert_eq|].
    cbn. repeat split; reflexivity.
  - destruct (status_of_known_project st4 name _
                (GudoaiApiClient.update_record
                   (GudoaiApiClient.new_record id name h3
                      (ProjectMetadata.version m2)
                      (ProjectMetadata.description m2))
                   h (ProjectMetadata.version m3)
                   (ProjectMetadata.description m3) manifest) Hm4)
      as (_ & lines & Hlines & _ & Hequal & _).
    { rewrite Hprojects4. apply lookup_insert_eq. }
    exists lines. split; [exact Hlines|]. apply Hequal. reflexivity.
Qed.

End OrchestratorFacts.

(** ** Invariants over all orchestrator calls *)

Module StepFacts.

Lemma after_step_registry (s : step) (st : state) :
  persisted st →
  persisted (after_step s st)
  ∧ ∀ id r,
      projects st !! id = Some r →
      ∃ r',
        projects (after_step s st) !! id = Some r'
        ∧ RegistryRecord.version r ≤ RegistryRecord.version r'
        ∧ RegistryRecord.project_id r' = RegistryRecord.project_id r
        ∧ RegistryRecord.project_name r' = RegistryRecord.project_name r
        ∧ RegistryRecord.is_deployed r' = RegistryRecord.is_deployed r.
Proof.
  unfold persisted. intros Hp.
  assert (Hsame : ∀ id r, projects st !! id = Some r →
            ∃ r', projects st !! id = Some r'
              ∧ RegistryRecord.version r ≤ RegistryRecord.version r'
              ∧ RegistryRecord.project_id r' = RegistryRecord.project_id r
              ∧ RegistryRecord.project_name r'
                = RegistryRecord.project_name r
              ∧ RegistryRecord.is_deployed r' = RegistryRecord.is_deployed r).
  { intros id r Hr. exists r. split; [exact Hr|]. repeat split; lia. }
  destruct s as [[n d|n|n|]|env n|n b|n b|n]; cbn [after_step perform].
  all: unfold_everything.
  - (* update_metadata *)
    split_run; anonymous_processes; split; first [exact Hp | exact Hsame].
  - (* register_project *)
    split_run; anonymous_processes; (split; [first [exact Hp | reflexivity]|]);
      try exact Hsame.
    all: intros id rec Hrec; exists rec; (split; [|repeat split; lia]).
    all: rewrite lookup_insert_ne; [exact Hrec|intros <-; congruence].
  - (* sync_project *)
    split_run; anonymous_processes; (split; [first [exact Hp | reflexivity]|]);
      try exact Hsame.
    all: intros id rec Hrec.
    all: match goal with
         | |- context [<[?k := _]> _] =>
             destruct (decide (k = id)) as [<-|Hne]
         end.
    all: try (rewrite lookup_insert_ne by done; apply Hsame, Hrec).
    all: rewrite lookup_insert_eq; OrchestratorFacts.same_lookup.
    all: eexists; (split; [reflexivity|]); cbn; repeat split; lia.
  - (* a new process *)
    cbn in Hp. injection Hp as Hload. split.
    + by destruct (db_file st) as [[|dict]|].
    + rewrite Hload. exact Hsame.
  - (* init_project *)
    destruct (GudoaiCoreRest.path_exists env n);
      split_run; anonymous_processes; split; first [exact Hp | exact Hsame].
  - (* create_feature_branch *)
    split_run; anonymous_processes; split; first [exact Hp | exact Hsame].
  - (* merge_to_main *)
    split_run; anonymous_processes; split; first [exact Hp | exact Hsame].
  - (* check_api_status *)
    split_run; anonymous_processes; split; first [exact Hp | exact Hsame].
Qed.

(** X21. Started from a state in which the database file holds the
    client's dictionary, no succession of orchestrator calls of any kind
    and of process restarts removes a record from the registry, lowers
    its version or changes its [project_id], [project_name] or
    [is_deployed]; and the database file keeps holding the dictionary. *)
Theorem steps_keep_registry (l : list step) (st : state) (id : string)
    (r : RegistryRecord.t) :
  persisted st →
  projects st !! id = Some r →
  persisted (after_steps l st)
  ∧ ∃ r',
      projects (after_steps l st) !! id = Some r'
      ∧ RegistryRecord.version r ≤ RegistryRecord.version r'
      ∧ RegistryRecord.project_id r' = RegistryRecord.project_id r
      ∧ RegistryRecord.project_name r' = RegistryRecord.project_name r
      ∧ RegistryRecord.is_deployed r' = RegistryRecord.is_deployed r.
Proof.
  revert st r. induction l as [|s l IH]; intros st r Hp Hr; cbn [after_steps].
  - split; [exact Hp|]. exists r. split; [exact Hr|]. repeat split; lia.
  - destruct (after_step_registry s st Hp) as [Hp1 Hkeep].
    destruct (Hkeep id r Hr) as (r1 & Hr1 & Hv1 & Hid1 & Hname1 & Hdep1).
    destruct (IH _ r1 Hp1 Hr1) as (Hp' & r' & Hr' & Hv & Hid & Hname & Hdep).
    split; [exact Hp'|]. exists r'. split; [exact Hr'|].
    repeat split; [lia|congruence..].
Qed.



End StepFacts.

(** ** The text the orchestrator reads from the tool *)

Module TextFacts.

Lemma app_nil (t : string) : "" +:+ t = t.
Proof. reflexivity. Qed.

Lemma app_cons (c : ascii) (s t : string) :
  String c s +:+ t = String c (s +:+ t).
Proof. reflexivity. Qed.

Lemma lstrip_plain (s : string) : starts_plain s = true → Py.lstrip s = s.
Proof.
  destruct s as [|c s]; cbn; [done|].
  by destruct (Py.is_space c).
Qed.

Lemma rstrip_plain (s : string) : ends_plain s = true → Py.rstrip s = s.
Proof.
  induction s as [|c s IH]; [done|]. destruct s as [|c' s].
  - cbn. by destruct (Py.is_space c).
  - intros Hend. change (ends_plain (String c' s) = true) in Hend.
    cbn [Py.rstrip]. cbn [Py.rstrip] in IH. rewrite (IH Hend). reflexivity.
Qed.

Lemma lstrip_shape (s : string) :
  Py.lstrip s = "" ∨ starts_plain (Py.lstrip s) = true.
Proof.
  induction s as [|c s IH]; [by left|]. cbn [Py.lstrip].
  destruct (Py.is_space c) eqn:Hc; [exact IH|]. right. cbn. by rewrite Hc.
Qed.

Lemma rstrip_shape (s : string) :
  Py.rstrip s = "" ∨ ends_plain (Py.rstrip s) = true.
Proof.
  induction s as [|c s IH]; [by left|]. cbn [Py.rstrip].
  destruct (Py.rstrip s) as [|c' r] eqn:Hr.
  - destruct (Py.is_space c) eqn:Hc; [by left|]. right. cbn. by rewrite Hc.
  - right. destruct IH as [IH|IH]; [done|]. exact IH.
Qed.

Lemma rstrip_starts (s : string) :
  starts_plain s = true → starts_plain (Py.rstrip s) = true.
Proof.
  destruct s as [|c s]; [done|]. cbn [starts_plain Py.rstrip].
  intros Hc. destruct (Py.rstrip s); [|exact Hc].
  destruct (Py.is_space c) eqn:E; [discriminate Hc|]. cbn. by rewrite E.
Qed.

Lemma strip_shape (s : string) :
  Py.strip s = ""
  ∨ (starts_plain (Py.strip s) = true ∧ ends_plain (Py.strip s) = true).
Proof.
  unfold Py.strip. destruct (lstrip_shape s) as [Hl|Hl].
  - left. by rewrite Hl.
  - destruct (rstrip_shape (Py.lstrip s)) as [Hr|Hr]; [by left|].
    right. split; [by apply rstrip_starts|exact Hr].
Qed.

Lemma strip_plain (s : string) :
  starts_plain s = true → ends_plain s = true → Py.strip s = s.
Proof.
  intros Hs He. unfold Py.strip. rewrite (lstrip_plain s Hs).
  by apply rstrip_plain.
Qed.

Lemma rstrip_app (s t : string) :
  Py.rstrip (s +:+ t)
  = match Py.rstrip t with
    | EmptyString => Py.rstrip s
    | _ => s +:+ Py.rstrip t
    end.
Proof.
  induction s as [|c s IH].
  - rewrite app_nil. by destruct (Py.rstrip t).
  - rewrite app_cons. cbn [Py.rstrip]. rewrite IH.
    destruct (Py.rstrip t) as [|c' r]; [reflexivity|].
    by destruct s.
Qed.

Lemma starts_plain_app (s t : string) :
  starts_plain s = true → starts_plain (s +:+ t) = true.
Proof. by destruct s. Qed.

Lemma ends_plain_app (s t : string) :
  ends_plain t = true → ends_plain (s +:+ t) = true.
Proof.
  intros Ht. induction s as [|c s IH]; [exact Ht|].
  rewrite app_cons. cbn [ends_plain].
  destruct (s +:+ t) eqn:Hst; [discriminate IH|exact IH].
Qed.

Lemma split_plain (sep : ascii) (s : string) :
  contains sep s = false → Py.split sep s = [s].
Proof.
  induction s as [|c s IH]; [done|]. cbn [contains Py.split].
  intros [Hc Hs]%orb_false_elim. rewrite Hc, (IH Hs). reflexivity.
Qed.

Lemma split_app_sep (sep : ascii) (s t : string) :
  contains sep s = false →
  Py.split sep (s +:+ String sep t) = s :: Py.split sep t.
Proof.
  induction s as [|c s IH].
  - intros _. rewrite app_nil. cbn [Py.split]. by rewrite Ascii.eqb_refl.
  - rewrite app_cons. cbn [contains Py.split].
    intros [Hc Hs]%orb_false_elim. rewrite Hc, (IH Hs). reflexivity.
Qed.

Lemma join_split (sep : ascii) (s : string) :
  join sep (Py.split sep s) = s.
Proof.
  induction s as [|c s IH]; [done|]. cbn [Py.split].
  destruct (Ascii.eqb c sep) eqn:Hc.
  - apply Ascii.eqb_eq in Hc as ->.
    destruct (Py.split sep s) as [|w ws] eqn:Hs;
      [by apply split_not_nil in Hs|].
    change (join sep ("" :: w :: ws))
      with ("" +:+ String sep (join sep (w :: ws))).
    by rewrite app_nil, IH.
  - destruct (Py.split sep s) as [|w ws]; [by rewrite <- IH|].
    destruct ws as [|w' ws].
    + change (join sep [w]) with w in IH. by rewrite <- IH.
    + change (join sep (String c w :: w' :: ws))
        with (String c w +:+ String sep (join sep (w' :: ws))).
      change (join sep (w :: w' :: ws))
        with (w +:+ String sep (join sep (w' :: ws))) in IH.
      by rewrite app_cons, IH.
Qed.

Lemma split_parts_plain (sep : ascii) (s : string) :
  Forall (λ w, contains sep w = false) (Py.split sep s).
Proof.
  induction s as [|c s IH]; [by repeat constructor|]. cbn [Py.split].
  destruct (Ascii.eqb c sep) eqn:Hc; [by constructor|].
  destruct (Py.split sep s) as [|w ws].
  - repeat constructor. cbn. by rewrite Hc.
  - inversion IH as [|? ? Hw Hws]; subst. constructor; [|exact Hws].
    cbn. by rewrite Hc, Hw.
Qed.

Lemma split_join (sep : ascii) (l : list string) :
  l ≠ [] → Forall (λ w, contains sep w = false) l →
  Py.split sep (join sep l) = l.
Proof.
  induction l as [|w l IH]; [done|]. intros _ Hall.
  inversion Hall as [|? ? Hw Hl]; subst.
  destruct l as [|w' l]; [by apply split_plain|].
  cbn [join]. rewrite split_app_sep by exact Hw.
  f_equal. by apply IH.
Qed.

Lemma unlines_join (l : list string) :
  l ≠ [] → unlines l = join Py.newline l +:+ String Py.newline "".
Proof.
  induction l as [|w l IH]; [done|]. intros _.
  destruct l as [|w' l]; [reflexivity|].
  change (unlines (w :: w' :: l))
    with (w +:+ String Py.newline (unlines (w' :: l))).
  rewrite IH by done.
  change (join Py.newline (w :: w' :: l))
    with (w +:+ String Py.newline (join Py.newline (w' :: l))).
  generalize (join Py.newline (w' :: l)). intros t.
  induction w as [|c w IHw]; [reflexivity|].
  rewrite !app_cons. by rewrite IHw.
Qed.

Lemma join_starts (l : list string) (first : string) :
  head l = Some first → starts_plain first = true →
  starts_plain (join Py.newline l) = true.
Proof.
  destruct l as [|w l]; [done|]. intros [= ->] Hs.
  destruct l; [exact Hs|]. by apply starts_plain_app.
Qed.

Lemma join_ends (l : list string) (final : string) :
  last l = Some final → ends_plain final = true →
  ends_plain (join Py.newline l) = true.
Proof.
  induction l as [|w l IH]; [done|]. destruct l as [|w' l].
  - by intros [= ->].
  - intros Hlast He.
    change (join Py.newline (w :: w' :: l))
      with (w +:+ String Py.newline (join Py.newline (w' :: l))).
    apply ends_plain_app. specialize (IH Hlast He). cbn [ends_plain].
    destruct (join Py.newline (w' :: l)); [discriminate IH|exact IH].
Qed.

(** Names printed one per line are read back exactly. *)
Lemma strip_split_unlines (names : list string) (first final : string) :
  head names = Some first → starts_plain first = true →
  last names = Some final → ends_plain final = true →
  Forall (λ n, contains Py.newline n = false) names →
  Py.split Py.newline (Py.strip (unlines names)) = names.
Proof.
  intros Hhead Hs Hlast He Hall.
  assert (Hne : names ≠ []) by (by destruct names).
  rewrite unlines_join by exact Hne.
  pose proof (join_starts names first Hhead Hs) as Hjs.
  pose proof (join_ends names final Hlast He) as Hje.
  unfold Py.strip.
  rewrite lstrip_plain by (by apply starts_plain_app).
  rewrite rstrip_app. change (Py.rstrip (String Py.newline "")) with "".
  rewrite rstrip_plain by exact Hje.
  by apply split_join.
Qed.

(** X23. Whatever [git ls-files] prints, the list that
    [_get_tracked_files] returns, joined with newlines, is the stripped
    output, and no entry of it contains a newline. *)
Theorem tracked_files_join_back (st : state) (name : string) :
  let ls := git st (trace st) name ["git"; "ls-files"] in
  returncode ls = 0 →
  ∃ files,
    (GudoaiCore._get_tracked_files name st).1 = Return files
    ∧ join Py.newline files = Py.strip (stdout ls)
    ∧ Forall (λ f, contains Py.newline f = false) files.
Proof.
  intros ls Hrc. subst ls. unfold_all.
  destruct (decide _) as [Hn|_]; [done|]. cbn.
  eexists. split; [reflexivity|]. split.
  - apply join_split.
  - apply split_parts_plain.
Qed.

(** X24. When [git ls-files] prints names one per line, none holding a
    newline, the first not starting and the last not ending with
    whitespace, [_get_tracked_files] returns exactly these names in
    order. *)
Theorem tracked_files_exact (st : state) (name : string)
    (names : list string) (first final : string) :
  let ls := git st (trace st) name ["git"; "ls-files"] in
  returncode ls = 0 →
  stdout ls = unlines names →
  head names = Some first → starts_plain first = true →
  last names = Some final → ends_plain final = true →
  Forall (λ n, contains Py.newline n = false) names →
  (GudoaiCore._get_tracked_files name st).1 = Return names.
Proof.
  intros ls Hrc Hout Hhead Hs Hlast He Hall. subst ls. unfold_all.
  destruct (decide _) as [Hn|_]; [done|]. cbn. rewrite Hout.
  f_equal. by eapply strip_split_unlines.
Qed.

(** X25. The commit hash that [_get_current_commit_hash] returns is
    empty or neither starts nor ends with whitespace, and stripping it
    again changes nothing; when [git rev-parse HEAD] prints a hash of
    that form followed by a newline, the hash itself is returned. *)
Theorem commit_hash_is_trimmed (st : state) (name : string) :
  let head := git st (trace st) name ["git"; "rev-parse"; "HEAD"] in
  returncode head = 0 →
  ∃ h,
    (GudoaiCore._get_current_commit_hash name st).1 = Return h
    ∧ (h = "" ∨ (starts_plain h = true ∧ ends_plain h = true))
    ∧ Py.strip h = h
    ∧ (∀ hash, stdout head = hash +:+ String Py.newline "" →
               starts_plain hash = true → ends_plain hash = true →
               h = hash).
Proof.
  intros head Hrc. subst head. unfold_all.
  destruct (decide _) as [Hn|_]; [done|]. cbn.
  eexists. split; [reflexivity|]. split; [apply strip_shape|]. split.
  - destruct (strip_shape
                (stdout (git st (trace st) name ["git"; "rev-parse"; "HEAD"])))
      as [->|[Hs He]]; [reflexivity|by apply strip_plain].
  - intros hash -> Hs He. unfold Py.strip.
    rewrite lstrip_plain by (by apply starts_plain_app).
    rewrite rstrip_app. change (Py.rstrip (String Py.newline "")) with "".
    by apply rstrip_plain.
Qed.

End TextFacts.

(** ** The further facts on the sample data *)

Module Checks.

Lemma registry_calls_keep_records_witness :
  projects Sample.registered !! "id-1" = Some Scenario.registered_record
  ∧ ∃ r',
      projects (api_perform_all Scenario.calls Sample.registered) !! "id-1"
        = Some r'
      ∧ RegistryRecord.version Scenario.registered_record
        ≤ RegistryRecord.version r'
      ∧ RegistryRecord.project_name r' = "demo".
Proof.
  split; [reflexivity|].
  destruct (RegistryInvariants.registry_calls_keep_records Scenario.calls
              Sample.registered "id-1" Scenario.registered_record eq_refl)
    as (r' & Hr' & Hv & _ & Hname & _).
  exists r'. split; [exact Hr'|]. split; [exact Hv|exact Hname].
Defined.

Lemma registry_calls_keep_file_current_witness :
  persisted (GudoaiApiClient.__init__ Sample.fresh).2
  ∧ persisted
      (api_perform_all Scenario.calls
         (GudoaiApiClient.__init__ Sample.fresh).2).
Proof.
  pose proof (proj1 (RegistryInvariants.registry_calls_keep_file_current
                       Scenario.calls Sample.fresh)) as Hstart.
  split; [exact Hstart|].
  exact (proj1 (proj2 (RegistryInvariants.registry_calls_keep_file_current
                         Scenario.calls
                         (GudoaiApiClient.__init__ Sample.fresh).2) Hstart)).
Defined.

Lemma registry_calls_keep_keys_witness :
  well_keyed (projects Sample.fresh)
  ∧ well_keyed (projects (api_perform_all Scenario.calls Sample.fresh)).
Proof.
  assert (Hempty : well_keyed (projects Sample.fresh)).
  { intros id r Hr. change (projects Sample.fresh) with
      (∅ : gmap string RegistryRecord.t) in Hr.
    rewrite lookup_empty in Hr. discriminate Hr. }
  split; [exact Hempty|].
  exact (RegistryInvariants.registry_calls_keep_keys Scenario.calls
           Sample.fresh Hempty).
Defined.

Lemma client_without_database_witness :
  db_file Sample.fresh = None
  ∧ (GudoaiApiClient.get_project_status "id-1"
       (GudoaiApiClient.__init__ Sample.fresh).2).1
    = Return (404, PError "Project not found").
Proof.
  split; [reflexivity|].
  exact (proj1 (proj2 (RegistryInvariants.client_without_database
                         Sample.fresh "id-1" "demo" "abc123" "x" 1 []
                         (or_introl eq_refl)))).
Defined.

Lemma sync_project_not_repeatable_witness :
  (GudoaiApiClient.sync_project "id-1" "def456" 2 "y" [] Sample.registered).1
    = Return (200, PSynced "def456")
  ∧ (GudoaiApiClient.sync_project "id-1" "def456" 2 "y" []
       (GudoaiApiClient.sync_project "id-1" "def456" 2 "y" []
          Sample.registered).2).1
    = Return (400, PError
        "Stale data: metadata_version must be greater than current.").
Proof.
  split; [reflexivity|].
  exact (proj1 (RegistryInvariants.sync_project_not_repeatable
                  Sample.registered "id-1" "def456" "y" 2 [] eq_refl)).
Defined.

Lemma sync_project_requires_registration_witness :
  meta_files Sample.fresh !! GudoaiCore.meta_path "demo"
    = Some (Json Sample.meta0)
  ∧ ProjectMetadata.api_registered Sample.meta0 = false
  ∧ GudoaiCore.sync_project "demo" Sample.fresh
    = (Raise (ValueError "Project not registered with the API."),
       Sample.fresh).
Proof.
  split; [reflexivity|]. split; [reflexivity|].
  exact (OrchestratorFacts.sync_project_requires_registration Sample.fresh
           "demo" Sample.meta0 eq_refl eq_refl).
Defined.

Lemma unreadable_metadata_errors_witness :
  meta_files Scenario.garbled !! GudoaiCore.meta_path "demo" = Some NotJson
  ∧ GudoaiCore.update_metadata "demo" "x" Scenario.garbled
    = (Raise (ValueError "File demo/gudoai_meta.json is not valid JSON."),
       Scenario.garbled)
  ∧ ∃ msg, GudoaiCore.register_project "demo" Scenario.garbled
           = (Raise (ValueError msg), Scenario.garbled).
Proof.
  split; [reflexivity|].
  destruct (OrchestratorFacts.unreadable_metadata_errors Scenario.garbled
              "demo" "x" (or_intror eq_refl))
    as (Hregister & _ & _ & _ & Hupdate).
  split; [exact (Hupdate eq_refl)|exact Hregister].
Defined.

Lemma unresolved_commit_stops_before_registry_witness :
  meta_files (Sample.with_git Scenario.git_no_head Sample.fresh)
    !! GudoaiCore.meta_path "demo" = Some (Json Sample.meta0)
  ∧ (GudoaiCore.register_project "demo"
       (Sample.with_git Scenario.git_no_head Sample.fresh)).1
    = Raise (RuntimeError "Failed to get commit hash: fatal: bad HEAD").
Proof.
  split; [reflexivity|].
  refine (f_equal fst
            (proj1 (OrchestratorFacts.unresolved_commit_stops_before_registry
                      (Sample.with_git Scenario.git_no_head Sample.fresh)
                      "demo" Sample.meta0 eq_refl) _ eq_refl)).
  cbn. discriminate.
Defined.

Lemma update_metadata_without_commit_witness :
  meta_files (Sample.with_git Scenario.git_no_add Sample.fresh)
    !! GudoaiCore.meta_path "demo" = Some (Json Sample.meta0)
  ∧ (GudoaiCore.update_metadata "demo" "x"
       (Sample.with_git Scenario.git_no_add Sample.fresh)).1
    = Raise (CalledProcessError GudoaiCore.git_add 128)
  ∧ meta_files
      (GudoaiCore.update_metadata "demo" "x"
         (Sample.with_git Scenario.git_no_add Sample.fresh)).2
      !! GudoaiCore.meta_path "demo"
    = Some (Json (GudoaiCore.with_description_bumped Sample.meta0 "x")).
Proof.
  split; [reflexivity|].
  assert (Hfails : returncode
            (git (Sample.with_git Scenario.git_no_add Sample.fresh)
               (trace (dump_meta (GudoaiCore.meta_path "demo")
                         (GudoaiCore.with_description_bumped Sample.meta0 "x")
                         (Sample.with_git Scenario.git_no_add Sample.fresh)).2)
               "demo" GudoaiCore.git_add) ≠ 0).
  { cbn. discriminate. }
  destruct (OrchestratorFacts.update_metadata_without_commit
              (Sample.with_git Scenario.git_no_add Sample.fresh)
              "demo" "x" Sample.meta0 eq_refl Hfails)
    as (Hraise & _ & Hfile).
  split; [exact Hraise|exact Hfile].
Defined.

Lemma second_sync_is_stale_witness :
  200 ∈ api_statuses (new_events Sample.registered Sample.synced)
  ∧ api_statuses
      (new_events Sample.synced
         (GudoaiCore.sync_project "demo" Sample.synced).2) = [400]
  ∧ api_statuses
      (new_events
         (GudoaiCore.update_metadata "demo" "y" Sample.synced).2
         (GudoaiCore.sync_project "demo"
            (GudoaiCore.update_metadata "demo" "y" Sample.synced).2).2)
    = [200].
Proof.
  assert (Haccepted :
            200 ∈ api_statuses (new_events Sample.registered Sample.synced)).
  { change (200 ∈ [200]). apply list_elem_of_here. }
  split; [exact Haccepted|].
  destruct (OrchestratorFacts.second_sync_is_stale Sample.registered
              "demo" "y" Haccepted (λ tr, eq_refl) (λ tr, eq_refl))
    as ((Hstale & _) & Hagain).
  split; [exact Hstale|exact Hagain].
Defined.

Lemma lost_registry_strands_project_witness :
  meta_files Scenario.lost !! GudoaiCore.meta_path "demo"
    = Some (Json Scenario.registered_meta)
  ∧ db_file Scenario.lost = None
  ∧ api_statuses
      (new_events (GudoaiCore.__init__ Scenario.lost).2
         (GudoaiCore.sync_project "demo"
            (GudoaiCore.__init__ Scenario.lost).2).2) = [404].
Proof.
  split; [reflexivity|]. split; [reflexivity|].
  exact (proj1 (proj1 (OrchestratorFacts.lost_registry_strands_project
                         Scenario.lost "demo" Scenario.registered_meta
                         eq_refl eq_refl (or_introl eq_refl)
                         (λ tr, eq_refl) (λ tr, eq_refl)))).
Defined.

Lemma accepted_sync_aligns_local_and_remote_witness :
  200 ∈ api_statuses (new_events Sample.registered Sample.synced)
  ∧ persisted Sample.synced.
Proof.
  assert (Haccepted :
            200 ∈ api_statuses (new_events Sample.registered Sample.synced)).
  { change (200 ∈ [200]). apply list_elem_of_here. }
  split; [exact Haccepted|].
  destruct (OrchestratorFacts.accepted_sync_aligns_local_and_remote
              Sample.registered "demo" Haccepted)
    as (m' & r' & _ & _ & _ & _ & _ & _ & Hpersisted).
  exact Hpersisted.
Defined.

Lemma check_api_status_verdict_witness :
  meta_files Sample.registered !! GudoaiCore.meta_path "demo"
    = Some (Json Scenario.registered_meta)
  ∧ projects Sample.registered !! "id-1" = Some Scenario.registered_record
  ∧ (GudoaiCoreRest.check_api_status "demo" Sample.registered).2
    = log (EvApiStatus "id-1" 200) Sample.registered.
Proof.
  split; [reflexivity|]. split; [reflexivity|].
  exact (proj1 (proj1 (OrchestratorFacts.check_api_status_verdict
                         Sample.registered "demo" Scenario.registered_meta
                         eq_refl)
                  Scenario.registered_record eq_refl)).
Defined.

Lemma status_after_register_and_sync_witness :
  201 ∈ api_statuses (new_events Sample.updated Sample.registered)
  ∧ 200 ∈ api_statuses (new_events Sample.registered Sample.synced)
  ∧ (∃ lines,
       (GudoaiCoreRest.check_api_status "demo" Sample.registered).1
         = GudoaiCoreRest.Ok lines
       ∧ last lines = Some GudoaiCoreRest.hashes_differ_line)
  ∧ ∃ lines,
      (GudoaiCoreRest.check_api_status "demo" Sample.synced).1
        = GudoaiCoreRest.Ok lines
      ∧ last lines = Some GudoaiCoreRest.hashes_equal_line.
Proof.
  assert (Hregistered :
            201 ∈ api_statuses (new_events Sample.updated Sample.registered)).
  { change (201 ∈ [201]). apply list_elem_of_here. }
  assert (Hsynced :
            200 ∈ api_statuses (new_events Sample.registered Sample.synced)).
  { change (200 ∈ [200]). apply list_elem_of_here. }
  split; [exact Hregistered|]. split; [exact Hsynced|]. split.
  - exact (proj1 (OrchestratorFacts.status_after_register_and_sync
                    Sample.updated "demo") Hregistered).
  - exact (proj2 (OrchestratorFacts.status_after_register_and_sync
                    Sample.registered "demo") Hsynced).
Defined.

Lemma feature_branch_commands_witness :
  returncode (git Sample.fresh (trace Sample.fresh) "demo"
                ["git"; "checkout"; "-b"; "feature/login"]) = 0
  ∧ (GudoaiCore.create_feature_branch "demo" "login" Sample.fresh).1
    = Return tt.
Proof.
  split; [reflexivity|].
  exact (proj1 (proj2 (OrchestratorFacts.feature_branch_commands
                         Sample.fresh "demo" "login")) eq_refl).
Defined.

Lemma init_project_refusals_witness :
  GudoaiCoreRest.exists_ Scenario.env_taken "demo" = true
  ∧ GudoaiCoreRest.init_project Scenario.env_taken "demo" Sample.fresh
    = (GudoaiCoreRest.Err
         (GudoaiCoreRest.FileExistsError "Project 'demo' already exists."),
       Sample.fresh).
Proof.
  split; [reflexivity|].
  exact (proj1 (OrchestratorFacts.init_project_refusals Scenario.env_taken
                  Sample.fresh "demo") eq_refl).
Defined.

Lemma init_project_git_failure_witness :
  "demo" ≠ ""
  ∧ GudoaiCoreRest.exists_ Scenario.env_free "demo" = false
  ∧ (GudoaiCoreRest.init_project Scenario.env_free "demo"
       (Scenario.nothing Scenario.git_no_init)).1
    = GudoaiCoreRest.Err
        (GudoaiCoreRest.Thrown
           (RuntimeError "Git init failed: fatal: cannot mkdir"))
  ∧ meta_files
      (GudoaiCoreRest.init_project Scenario.env_free "demo"
         (Scenario.nothing Scenario.git_no_init)).2
      !! GudoaiCore.meta_path "demo"
    = Some (Json (GudoaiCoreRest.initial_meta "id-1")).
Proof.
  assert (Hname : "demo" ≠ "") by discriminate.
  split; [exact Hname|]. split; [reflexivity|].
  assert (Hfails : returncode
            (git (Scenario.nothing Scenario.git_no_init)
               (trace (dump_meta (GudoaiCore.meta_path "demo")
                         (GudoaiCoreRest.initial_meta
                            (GudoaiCoreRest.uuid4 Scenario.env_free))
                         (Scenario.nothing Scenario.git_no_init)).2)
               "demo" ["git"; "init"]) ≠ 0).
  { cbn. discriminate. }
  destruct (OrchestratorFacts.init_project_git_failure Scenario.env_free
              (Scenario.nothing Scenario.git_no_init) "demo" Hname eq_refl
              Hfails)
    as (Hraise & _ & Hfile & _).
  split; [exact Hraise|exact Hfile].
Defined.

Lemma init_project_success_witness :
  "demo" ≠ ""
  ∧ GudoaiCoreRest.exists_ Scenario.env_free "demo" = false
  ∧ (∀ tr args,
       returncode (git (Scenario.nothing Scenario.git_fine) tr "demo" args)
       = 0)
  ∧ (GudoaiCoreRest.init_project Scenario.env_free "demo"
       (Scenario.nothing Scenario.git_fine)).1 = GudoaiCoreRest.Ok tt.
Proof.
  assert (Hname : "demo" ≠ "") by discriminate.
  split; [exact Hname|]. split; [reflexivity|].
  split; [intros tr args; reflexivity|].
  exact (proj1 (OrchestratorFacts.init_project_success Scenario.env_free
                  (Scenario.nothing Scenario.git_fine) "demo" Hname eq_refl
                  (λ tr args, eq_refl))).
Defined.

Lemma project_lifecycle_witness :
  "demo" ≠ ""
  ∧ projects (Scenario.nothing Scenario.git_fine) !! "id-1" = None
  ∧ ∃ lines,
      (GudoaiCoreRest.check_api_status "demo"
         (GudoaiCore.sync_project "demo"
            (GudoaiCore.register_project "demo"
               (GudoaiCore.update_metadata "demo" "x"
                  (GudoaiCoreRest.init_project Scenario.env_free "demo"
                     (Scenario.nothing Scenario.git_fine)).2).2).2).2).1
        = GudoaiCoreRest.Ok lines
      ∧ last lines = Some GudoaiCoreRest.hashes_equal_line.
Proof.
  assert (Hname : "demo" ≠ "") by discriminate.
  split; [exact Hname|]. split; [reflexivity|].
  exact (proj2 (proj2 (proj2 (OrchestratorFacts.project_lifecycle
                                Scenario.env_free
                                (Scenario.nothing Scenario.git_fine)
                                "demo" "x" Hname eq_refl
                                (λ tr args, eq_refl) eq_refl)))).
Defined.

Lemma steps_keep_registry_witness :
  persisted Sample.registered
  ∧ projects Sample.registered !! "id-1" = Some Scenario.registered_record
  ∧ persisted (after_steps Scenario.steps Sample.registered)
  ∧ ∃ r',
      projects (after_steps Scenario.steps Sample.registered) !! "id-1"
        = Some r'
      ∧ RegistryRecord.version Scenario.registered_record
        ≤ RegistryRecord.version r'.
Proof.
  assert (Hp : persisted Sample.registered) by reflexivity.
  split; [exact Hp|]. split; [reflexivity|].
  destruct (StepFacts.steps_keep_registry Scenario.steps Sample.registered
              "id-1" Scenario.registered_record Hp eq_refl)
    as (Hp' & r' & Hr' & Hv & _).
  split; [exact Hp'|]. exists r'. split; [exact Hr'|exact Hv].
Defined.


Lemma tracked_files_join_back_witness :
  returncode (git Sample.fresh (trace Sample.fresh) "demo"
                ["git"; "ls-files"]) = 0
  ∧ ∃ files,
      (GudoaiCore._get_tracked_files "demo" Sample.fresh).1 = Return files
      ∧ Forall (λ f, contains Py.newline f = false) files.
Proof.
  split; [reflexivity|].
  destruct (TextFacts.tracked_files_join_back Sample.fresh "demo" eq_refl)
    as (files & Hfiles & _ & Hplain).
  exists files. split; [exact Hfiles|exact Hplain].
Defined.

Lemma tracked_files_exact_witness :
  stdout (git Sample.fresh (trace Sample.fresh) "demo" ["git"; "ls-files"])
    = unlines Scenario.tracked
  ∧ Forall (λ n, contains Py.newline n = false) Scenario.tracked
  ∧ (GudoaiCore._get_tracked_files "demo" Sample.fresh).1
    = Return Scenario.tracked.
Proof.
  assert (Hplain : Forall (λ n, contains Py.newline n = false)
                     Scenario.tracked).
  { repeat constructor. }
  split; [reflexivity|]. split; [exact Hplain|].
  exact (TextFacts.tracked_files_exact Sample.fresh "demo" Scenario.tracked
           "gudoai_meta.json" "README.md" eq_refl eq_refl eq_refl eq_refl
           eq_refl eq_refl Hplain).
Defined.

Lemma commit_hash_is_trimmed_witness :
  returncode (git Sample.fresh (trace Sample.fresh) "demo"
                ["git"; "rev-parse"; "HEAD"]) = 0
  ∧ ∃ h,
      (GudoaiCore._get_current_commit_hash "demo" Sample.fresh).1 = Return h
      ∧ Py.strip h = h.
Proof.
  split; [reflexivity|].
  destruct (TextFacts.commit_hash_is_trimmed Sample.fresh "demo" eq_refl)
    as (h & Hh & _ & Hstrip & _).
  exists h. split; [exact Hh|exact Hstrip].
Defined.

End Checks.
